(** * kubetrbl: the state machine and the troubleshooting pipeline

    A shallow embedding of [fsm/fsm.go] (package [fsm]) and of the
    service-based variant of package [main] (type [Kubetrbl]), followed by
    the properties of the resolution and validation steps.

    Go's mutable objects are modelled by explicit state passing: one record
    [Machine] holds the machine's current state name, what was printed on
    standard output and the fields of the [Kubetrbl] value the callbacks
    close over.  A callback is a computation on that record which may end
    normally, panic, block for ever, or run out of the fuel that bounds the
    depth of nested [Change]/[Update] calls. *)

From stdpp Require Import gmap strings list pretty.
From Stdlib Require Import Ascii ZArith Lia.

Set Default Proof Using "Type".
Local Open Scope string_scope.

(** Go's [error] interface, observed through [Error()]; [None] is [nil]. *)
Definition error : Type := string.

(** ** Package fsm *)

Module fsm.

(** What reaches standard output: a line of [fmt.Println], text printed
    without a line end, and the line printed just before the panic of
    [Change], which contains the printed form of the machine itself and is
    kept symbolic. *)
Inductive Output : Type :=
| Line (text : string)
| Text (text : string)
| NoStateLine (stateName : string).

Section Machine.

Context {D : Type}.

(** The mutable part of the program: the field [FSM.State], standard output
    and the data [D] captured by the callbacks. *)
Record Machine : Type := mkMachine {
  FSM_State : string;
  stdout : list Output;
  user : D
}.

Inductive Outcome (A : Type) : Type :=
| Done (a : A) (m : Machine)
| Panicked (msg : string) (m : Machine)
| Blocked (m : Machine)
| OutOfFuel.

Global Arguments Done {A} a m.
Global Arguments Panicked {A} msg m.
Global Arguments Blocked {A} m.
Global Arguments OutOfFuel {A}.

Definition M (A : Type) : Type := Machine -> Outcome A.

Definition ret {A} (a : A) : M A := fun m => Done a m.

Definition bind {A B} (c : M A) (k : A -> M B) : M B := fun m =>
  match c m with
  | Done a m' => k a m'
  | Panicked msg m' => Panicked msg m'
  | Blocked m' => Blocked m'
  | OutOfFuel => OutOfFuel
  end.

Definition get : M Machine := fun m => Done m m.
Definition panic {A} (msg : string) : M A := fun m => Panicked msg m.
Definition block {A} : M A := fun m => Blocked m.

Definition emit (o : Output) : M unit := fun m =>
  Done tt (mkMachine (FSM_State m) (stdout m ++ [o]) (user m)).

Definition Println (text : string) : M unit := emit (Line text).

Definition setState (name : string) : M unit := fun m =>
  Done tt (mkMachine name (stdout m) (user m)).

Definition getUser : M D := fun m => Done (user m) m.

Definition setUser (d : D) : M unit := fun m =>
  Done tt (mkMachine (FSM_State m) (stdout m) d).

(** The methods of the machine as a callback sees them: the callbacks of the
    program are closures over the machine and call back into it. *)
Record Ops : Type := mkOps {
  change : string -> M unit;
  update : M unit
}.

Definition Callback : Type := Ops -> M (option error).

(** [type State struct { Enter, Update, Exit func() error }]; [None] is a
    nil function. *)
Record State : Type := mkState {
  Enter : option Callback;
  Update : option Callback;
  Exit : option Callback
}.

Definition zeroState : State := mkState None None None.

(** [type FSM struct]: the field [State] lives in [Machine]; the directory
    and the handler are fixed once the machine is built. *)
Record FSM : Type := mkFSM {
  StateDirectory : gmap string State;
  ErrorHandler : Ops -> error -> M unit
}.

(** [f.StateDirectory[name]]: a missing key reads as the zero value. *)
Definition dirGet (f : FSM) (name : string) : State :=
  default zeroState (StateDirectory f !! name).

Definition NewFSM : FSM :=
  mkFSM ∅ (fun _ err => Println ("Error: " +:+ err)).

Definition Register (name : string) (state : State) (f : FSM) : FSM :=
  mkFSM (<[name := state]> (StateDirectory f)) (ErrorHandler f).

Definition Unregister (name : string) (f : FSM) : FSM :=
  mkFSM (delete name (StateDirectory f)) (ErrorHandler f).

Definition HasState (f : FSM) (name : string) : bool :=
  bool_decide (is_Some (StateDirectory f !! name)).

(** Run a callback and hand a failure to the error handler. *)
Definition invoke (f : FSM) (self : Ops) (cb : Callback) : M unit :=
  bind (cb self) (fun err =>
    match err with
    | Some e => ErrorHandler f self e
    | None => ret tt
    end).

(** The callback that a lifecycle phase runs in machine state [m], if any:
    [f.State != "" && f.StateDirectory[f.State].X != nil]. *)
Definition active (f : FSM) (sel : State -> option Callback) (m : Machine)
  : option Callback :=
  if decide (FSM_State m = "") then None else sel (dirGet f (FSM_State m)).

Definition exitPhase (f : FSM) (self : Ops) : M unit := fun m =>
  match active f Exit m with
  | Some cb => invoke f self cb m
  | None => Done tt m
  end.

Definition enterPhase (f : FSM) (self : Ops) : M unit := fun m =>
  match active f Enter m with
  | Some cb => invoke f self cb m
  | None => Done tt m
  end.

(** The body of [Change]; [self] serves the calls made from callbacks. *)
Definition Change_body (f : FSM) (self : Ops) (stateName : string) : M unit :=
  bind (exitPhase f self) (fun _ =>
    match StateDirectory f !! stateName with
    | None => bind (emit (NoStateLine stateName)) (fun _ => panic "Error!")
    | Some _ =>
        bind (setState stateName) (fun _ => enterPhase f self)
    end).

(** The body of [Update]. *)
Definition Update_body (f : FSM) (self : Ops) : M unit := fun m =>
  match active f Update m with
  | Some cb => invoke f self cb m
  | None => Println "Update() called on FSM without active state." m
  end.

(** Tying the knot: [fuel] bounds how deep calls of [Change] and [Update]
    may nest through callbacks and the error handler. *)
Fixpoint ops (f : FSM) (fuel : nat) : Ops :=
  match fuel with
  | O => mkOps (fun _ _ => OutOfFuel) (fun _ => OutOfFuel)
  | S n =>
      let self := ops f n in
      mkOps (Change_body f self) (Update_body f self)
  end.

Definition Change (f : FSM) (fuel : nat) (stateName : string) : M unit :=
  change (ops f fuel) stateName.

Definition FSM_Update (f : FSM) (fuel : nat) : M unit :=
  update (ops f fuel).

End Machine.

Global Arguments Machine : clear implicits.
Global Arguments Outcome : clear implicits.
Global Arguments M : clear implicits.
Global Arguments Ops : clear implicits.
Global Arguments Callback : clear implicits.
Global Arguments State : clear implicits.
Global Arguments FSM : clear implicits.

End fsm.

Import fsm.

(** Monadic notation of stdpp ([x ← c; k] and [c;; k]) for [M]. *)
Global Instance M_ret {D} : MRet (M D) := @ret D.
Global Instance M_bind {D} : MBind (M D) := fun A B k c => bind c k.

(** ** Library functions the program calls *)

(** [strconv.Itoa]. *)
Definition Itoa (n : Z) : string := pretty n.

Definition dquote : string := String (ascii_of_nat 34) EmptyString.
Definition backslash : string := String (ascii_of_nat 92) EmptyString.

(** [strings.TrimSpace]: the white space of [unicode.IsSpace] is removed at
    both ends of the UTF-8 text.  The ASCII white space is one byte each;
    the other white space runes are, with their encodings,
    U+0085 (C2 85), U+00A0 (C2 A0), U+1680 (E1 9A 80), U+2000 to U+200A
    (E2 80 80 to E2 80 8A), U+2028 (E2 80 A8), U+2029 (E2 80 A9), U+202F
    (E2 80 AF), U+205F (E2 81 9F) and U+3000 (E3 80 80).  A text begins, or
    ends, with one of these runes exactly when it begins, or ends, with
    these bytes. *)
Definition isSpace (c : ascii) : bool :=
  let n := nat_of_ascii c in
  bool_decide (n = 32 \/ (9 <= n /\ n <= 13)).

Definition spaceRune2 (c0 c1 : ascii) : bool :=
  let b0 := nat_of_ascii c0 in
  let b1 := nat_of_ascii c1 in
  bool_decide (b0 = 194 /\ (b1 = 133 \/ b1 = 160)).

Definition spaceRune3 (c0 c1 c2 : ascii) : bool :=
  let b0 := nat_of_ascii c0 in
  let b1 := nat_of_ascii c1 in
  let b2 := nat_of_ascii c2 in
  bool_decide
    ((b0 = 225 /\ b1 = 154 /\ b2 = 128) \/
     (b0 = 226 /\ b1 = 128 /\
      ((128 <= b2 /\ b2 <= 138) \/ b2 = 168 \/ b2 = 169 \/ b2 = 175)) \/
     (b0 = 226 /\ b1 = 129 /\ b2 = 159) \/
     (b0 = 227 /\ b1 = 128 /\ b2 = 128)).

Fixpoint trimLeft (s : string) : string :=
  match s with
  | String c0 rest0 =>
      if isSpace c0 then trimLeft rest0
      else
        match rest0 with
        | String c1 rest1 =>
            if spaceRune2 c0 c1 then trimLeft rest1
            else
              match rest1 with
              | String c2 rest2 =>
                  if spaceRune3 c0 c1 c2 then trimLeft rest2 else s
              | EmptyString => s
              end
        | EmptyString => s
        end
  | EmptyString => EmptyString
  end.

(** The same on the reversed text, where the bytes of a rune come last byte
    first. *)
Fixpoint trimLeftReversed (s : string) : string :=
  match s with
  | String c0 rest0 =>
      if isSpace c0 then trimLeftReversed rest0
      else
        match rest0 with
        | String c1 rest1 =>
            if spaceRune2 c1 c0 then trimLeftReversed rest1
            else
              match rest1 with
              | String c2 rest2 =>
                  if spaceRune3 c2 c1 c0 then trimLeftReversed rest2 else s
              | EmptyString => s
              end
        | EmptyString => s
        end
  | EmptyString => EmptyString
  end.

Definition TrimSpace (s : string) : string :=
  String.rev (trimLeftReversed (String.rev (trimLeft s))).

(** [strconv.Quote]: the text between double quotes, a quote and a
    backslash escaped, printable runes as they are, the others and the bytes
    that are no UTF-8 escaped.  Two things depend on the release of the
    library the program is built with: the tables that tell whether a rune
    above U+00FF is printable, and the escape of U+007F, written with two
    hexadecimal digits since Go 1.19 and with four before. *)
Record QuoteRules : Type := mkQuoteRules {
  printable : Z -> bool;
  shortDEL : bool
}.

Definition hexDigit (n : nat) : ascii :=
  match n with
  | 0 => "0" | 1 => "1" | 2 => "2" | 3 => "3" | 4 => "4" | 5 => "5"
  | 6 => "6" | 7 => "7" | 8 => "8" | 9 => "9" | 10 => "a" | 11 => "b"
  | 12 => "c" | 13 => "d" | 14 => "e" | _ => "f"
  end%char.

(** [digits] hexadecimal digits of [r], the most significant first. *)
Fixpoint hex (digits : nat) (r : Z) : string :=
  match digits with
  | O => EmptyString
  | S n =>
      String (hexDigit (Z.to_nat ((r / 16 ^ Z.of_nat n) `mod` 16)%Z)) (hex n r)
  end.

Definition IsPrint (rules : QuoteRules) (r : Z) : bool :=
  if bool_decide (r <= 255)%Z then
    bool_decide ((32 <= r /\ r <= 126) \/ (161 <= r /\ r <= 255 /\ r <> 173))%Z
  else printable rules r.

(** One rune [r] whose bytes in the text are [enc]. *)
Definition quoteRune (rules : QuoteRules) (r : Z) (enc : string) : string :=
  if bool_decide (r = 34 \/ r = 92)%Z then backslash +:+ enc
  else if IsPrint rules r then enc
  else if bool_decide (r = 7)%Z then "\a"
  else if bool_decide (r = 8)%Z then "\b"
  else if bool_decide (r = 12)%Z then "\f"
  else if bool_decide (r = 10)%Z then "\n"
  else if bool_decide (r = 13)%Z then "\r"
  else if bool_decide (r = 9)%Z then "\t"
  else if bool_decide (r = 11)%Z then "\v"
  else if bool_decide (r < 32)%Z || (bool_decide (r = 127)%Z && shortDEL rules)
       then "\x" +:+ hex 2 r
  else if bool_decide (r < 65536)%Z then "\u" +:+ hex 4 r
  else "\U" +:+ hex 8 r.

(** The first byte of a rune of more than one byte: the number of bytes and
    the range of the second byte. *)
Definition lead (b0 : nat) : option (nat * nat * nat) :=
  if bool_decide (194 <= b0 /\ b0 <= 223) then Some (2, 128, 191)
  else if bool_decide (b0 = 224) then Some (3, 160, 191)
  else if bool_decide (b0 = 237) then Some (3, 128, 159)
  else if bool_decide (225 <= b0 /\ b0 <= 239) then Some (3, 128, 191)
  else if bool_decide (b0 = 240) then Some (4, 144, 191)
  else if bool_decide (b0 = 244) then Some (4, 128, 143)
  else if bool_decide (241 <= b0 /\ b0 <= 243) then Some (4, 128, 191)
  else None.

Definition continues (c : ascii) : bool :=
  bool_decide (128 <= nat_of_ascii c /\ nat_of_ascii c <= 191).

Definition low6 (c : ascii) : Z := (Z.of_nat (nat_of_ascii c) `mod` 64)%Z.

Definition badByte (c : ascii) : string :=
  "\x" +:+ hex 2 (Z.of_nat (nat_of_ascii c)).

Fixpoint quoteBody (rules : QuoteRules) (s : string) : string :=
  match s with
  | EmptyString => EmptyString
  | String c0 rest0 =>
      let b0 := nat_of_ascii c0 in
      if bool_decide (b0 < 128) then
        quoteRune rules (Z.of_nat b0) (String c0 EmptyString)
          +:+ quoteBody rules rest0
      else
        match lead b0, rest0 with
        | Some (size, lo, hi), String c1 rest1 =>
            if bool_decide (lo <= nat_of_ascii c1 /\ nat_of_ascii c1 <= hi) then
              if bool_decide (size = 2) then
                quoteRune rules
                  ((Z.of_nat b0 `mod` 32) * 64 + low6 c1)%Z
                  (String c0 (String c1 EmptyString))
                  +:+ quoteBody rules rest1
              else
                match rest1 with
                | String c2 rest2 =>
                    if continues c2 then
                      if bool_decide (size = 3) then
                        quoteRune rules
                          ((Z.of_nat b0 `mod` 16) * 4096 + low6 c1 * 64
                           + low6 c2)%Z
                          (String c0 (String c1 (String c2 EmptyString)))
                          +:+ quoteBody rules rest2
                      else
                        match rest2 with
                        | String c3 rest3 =>
                            if continues c3 then
                              quoteRune rules
                                ((Z.of_nat b0 `mod` 8) * 262144
                                 + low6 c1 * 4096 + low6 c2 * 64 + low6 c3)%Z
                                (String c0 (String c1 (String c2
                                   (String c3 EmptyString))))
                                +:+ quoteBody rules rest3
                            else badByte c0 +:+ quoteBody rules rest0
                        | EmptyString => badByte c0 +:+ quoteBody rules rest0
                        end
                    else badByte c0 +:+ quoteBody rules rest0
                | EmptyString => badByte c0 +:+ quoteBody rules rest0
                end
            else badByte c0 +:+ quoteBody rules rest0
        | _, _ => badByte c0 +:+ quoteBody rules rest0
        end
  end.

Definition Quote (rules : QuoteRules) (s : string) : string :=
  dquote +:+ quoteBody rules s +:+ dquote.

(** [strconv.Atoi] for a 64-bit [int].  [parseUint] is the loop of
    [ParseUint] in base 10: a byte that is no digit is a syntax error, a
    value that leaves 64 bits a range error, whichever comes first. *)
Definition digitVal (c : ascii) : option Z :=
  let n := nat_of_ascii c in
  if bool_decide (48 <= n /\ n <= 57) then Some (Z.of_nat n - 48)%Z else None.

Inductive Parsed : Type :=
| Value (n : Z)
| Syntax
| Range.

Definition maxUint64 : Z := 18446744073709551615.

Fixpoint parseUint (s : string) (n : Z) : Parsed :=
  match s with
  | EmptyString => Value n
  | String c rest =>
      match digitVal c with
      | None => Syntax
      | Some d =>
          if bool_decide (maxUint64 / 10 + 1 <= n)%Z then Range
          else if bool_decide (maxUint64 < 10 * n + d)%Z then Range
          else parseUint rest (10 * n + d)%Z
      end
  end.

(** [*strconv.NumError] as [Atoi] returns it: the text that was parsed and
    the reason. *)
Record NumError : Type := mkNumError {
  Num : string;
  Err : string
}.

Definition ErrSyntax : string := "invalid syntax".
Definition ErrRange : string := "value out of range".

Definition Atoi (s : string) : NumError + Z :=
  let '(neg, body) :=
    match s with
    | String "-" rest => (true, rest)
    | String "+" rest => (false, rest)
    | _ => (false, s)
    end in
  match body with
  | EmptyString => inl (mkNumError s ErrSyntax)
  | _ =>
      match parseUint body 0 with
      | Syntax => inl (mkNumError s ErrSyntax)
      | Range => inl (mkNumError s ErrRange)
      | Value n =>
          let v := if neg then (- n)%Z else n in
          if bool_decide (- 2 ^ 63 <= v < 2 ^ 63)%Z then inr v
          else inl (mkNumError s ErrRange)
      end
  end.

(** What [readInt] can fail with: the error of the read or the one of the
    conversion; [errorText] is its [Error()]. *)
Inductive InputError : Type :=
| ReadFailed (e : error)
| ParseFailed (e : NumError).

Definition errorText (rules : QuoteRules) (e : InputError) : error :=
  match e with
  | ReadFailed msg => msg
  | ParseFailed ne =>
      "strconv.Atoi: parsing " +:+ Quote rules (Num ne) +:+ ": " +:+ Err ne
  end.

(** ** Cluster objects, as far as the program reads them *)

(** [intstr.IntOrString] as decoded from the API: a numeric reference has an
    empty [StrVal], a symbolic one a zero [IntVal]. *)
Inductive IntOrString : Type :=
| FromInt (val : Z)
| FromString (val : string).

Definition StrVal (t : IntOrString) : string :=
  match t with FromInt _ => "" | FromString s => s end.

Definition IntVal (t : IntOrString) : Z :=
  match t with FromInt n => n | FromString _ => 0%Z end.

Record ContainerPort : Type := mkContainerPort {
  cp_Name : string;
  cp_ContainerPort : Z
}.

Definition zeroContainerPort : ContainerPort := mkContainerPort "" 0.

Record Container : Type := mkContainer {
  c_Name : string;
  c_Ports : list ContainerPort
}.

Record Deployment : Type := mkDeployment {
  d_Name : string;
  d_Labels : gmap string string;
  d_Containers : list Container
}.

Record ServicePort : Type := mkServicePort {
  sp_Name : string;
  sp_TargetPort : IntOrString
}.

Definition zeroServicePort : ServicePort := mkServicePort "" (FromInt 0).

Record Service : Type := mkService {
  svc_Name : string;
  svc_Selector : gmap string string;
  svc_Ports : list ServicePort
}.

Definition zeroService : Service := mkService "" ∅ [].

Record PodCondition : Type := mkPodCondition {
  pc_Type : string;
  pc_Status : string
}.

Record Pod : Type := mkPod {
  pod_Name : string;
  pod_Labels : gmap string string;
  pod_Phase : string;
  pod_Conditions : list PodCondition
}.

(** [labels[key]] on a Go map: a missing key reads as the empty string. *)
Definition label (labels : gmap string string) (key : string) : string :=
  default "" (labels !! key).

Definition nameLabel : string := "app.kubernetes.io/name".

(** [rest.Config], the three fields the program touches. *)
Record Config : Type := mkConfig {
  GroupVersion : option (string * string);
  APIPath : string;
  NegotiatedSerializer : bool
}.

(** ** The collaborators *)

(** What one port-forward attempt meets: [portforward.New] fails, the
    forwarder never becomes ready, or it is ready and the GET on the local
    port ends in a request error or in a status code. *)
Inductive TunnelAttempt : Type :=
| NewFails (e : error)
| NeverReady
| Ready (probe : error + Z).

Record Env : Type := mkEnv {
  BuildConfigFromFlags : string -> error + Config;
  NewForConfig : Config -> option error;
  ListNamespaces : error + list string;
  ListPods : string -> error + list Pod;
  ListServices : string -> error + list Service;
  GetDeployment : string -> string -> error + Deployment;
  RESTClientFor : Config -> option error;
  Tunnel : string -> string -> string -> TunnelAttempt;
  Quoting : QuoteRules
}.

(** [Quoting] is what [strconv.Quote] takes from the release of the library,
    see [QuoteRules]. *)

(** What happens to the tunnels, in program order. *)
Inductive TunnelEvent : Type :=
| Started (pod : string) (mapping : string)
| Probed (pod : string)
| Stopped (pod : string).

(** ** The Kubetrbl value *)

Record Kubetrbl : Type := mkKubetrbl {
  reader : list string;
  cfg : string;
  k8sClient : bool;
  namespace : string;
  config : option Config;
  svc : Service;
  svcPort : ServicePort;
  controller : option Deployment;
  containerPort : ContainerPort;
  podList : list Pod;
  pods : option (list Pod);
  tunnels : list TunnelEvent
}.

Definition newK (input : list string) : Kubetrbl :=
  mkKubetrbl input "" false "" None zeroService zeroServicePort None
             zeroContainerPort [] None [].

Definition set_reader (v : list string) (k : Kubetrbl) : Kubetrbl :=
  mkKubetrbl v (cfg k) (k8sClient k) (namespace k) (config k) (svc k)
    (svcPort k) (controller k) (containerPort k) (podList k) (pods k)
    (tunnels k).
Definition set_cfg (v : string) (k : Kubetrbl) : Kubetrbl :=
  mkKubetrbl (reader k) v (k8sClient k) (namespace k) (config k) (svc k)
    (svcPort k) (controller k) (containerPort k) (podList k) (pods k)
    (tunnels k).
Definition set_k8sClient (v : bool) (k : Kubetrbl) : Kubetrbl :=
  mkKubetrbl (reader k) (cfg k) v (namespace k) (config k) (svc k)
    (svcPort k) (controller k) (containerPort k) (podList k) (pods k)
    (tunnels k).
Definition set_namespace (v : string) (k : Kubetrbl) : Kubetrbl :=
  mkKubetrbl (reader k) (cfg k) (k8sClient k) v (config k) (svc k)
    (svcPort k) (controller k) (containerPort k) (podList k) (pods k)
    (tunnels k).
Definition set_config (v : option Config) (k : Kubetrbl) : Kubetrbl :=
  mkKubetrbl (reader k) (cfg k) (k8sClient k) (namespace k) v (svc k)
    (svcPort k) (controller k) (containerPort k) (podList k) (pods k)
    (tunnels k).
Definition set_svc (v : Service) (k : Kubetrbl) : Kubetrbl :=
  mkKubetrbl (reader k) (cfg k) (k8sClient k) (namespace k) (config k) v
    (svcPort k) (controller k) (containerPort k) (podList k) (pods k)
    (tunnels k).
Definition set_svcPort (v : ServicePort) (k : Kubetrbl) : Kubetrbl :=
  mkKubetrbl (reader k) (cfg k) (k8sClient k) (namespace k) (config k)
    (svc k) v (controller k) (containerPort k) (podList k) (pods k)
    (tunnels k).
Definition set_controller (v : option Deployment) (k : Kubetrbl) : Kubetrbl :=
  mkKubetrbl (reader k) (cfg k) (k8sClient k) (namespace k) (config k)
    (svc k) (svcPort k) v (containerPort k) (podList k) (pods k)
    (tunnels k).
Definition set_containerPort (v : ContainerPort) (k : Kubetrbl) : Kubetrbl :=
  mkKubetrbl (reader k) (cfg k) (k8sClient k) (namespace k) (config k)
    (svc k) (svcPort k) (controller k) v (podList k) (pods k) (tunnels k).
Definition set_podList (v : list Pod) (k : Kubetrbl) : Kubetrbl :=
  mkKubetrbl (reader k) (cfg k) (k8sClient k) (namespace k) (config k)
    (svc k) (svcPort k) (controller k) (containerPort k) v (pods k)
    (tunnels k).
Definition set_pods (v : option (list Pod)) (k : Kubetrbl) : Kubetrbl :=
  mkKubetrbl (reader k) (cfg k) (k8sClient k) (namespace k) (config k)
    (svc k) (svcPort k) (controller k) (containerPort k) (podList k) v
    (tunnels k).
Definition log_tunnel (e : TunnelEvent) (k : Kubetrbl) : Kubetrbl :=
  mkKubetrbl (reader k) (cfg k) (k8sClient k) (namespace k) (config k)
    (svc k) (svcPort k) (controller k) (containerPort k) (podList k)
    (pods k) (tunnels k ++ [e]).

(** ** Package main: the callbacks *)

Definition nilDeref : string :=
  "runtime error: invalid memory address or nil pointer dereference".

Definition modify (g : Kubetrbl -> Kubetrbl) : M Kubetrbl unit :=
  k ← getUser; setUser (g k).

(** [fmt.Printf] of a text that does not end its line. *)
Definition Printf (text : string) : M Kubetrbl unit := emit (Text text).

(** [l[i]] on a slice: a run-time panic outside [0 .. len(l) - 1]. *)
Definition index {A} (l : list A) (i : Z) : M Kubetrbl A :=
  if decide (i < 0)%Z then
    panic ("runtime error: index out of range [" +:+ Itoa i +:+ "]")
  else
    match l !! Z.to_nat i with
    | Some x => ret x
    | None =>
        panic ("runtime error: index out of range [" +:+ Itoa i +:+
               "] with length " +:+ Itoa (Z.of_nat (length l)))
    end.

(** [for i, nm := range names { fmt.Println(strconv.Itoa(i) + ") " + nm) }] *)
Fixpoint printIndexed (i : Z) (names : list string) : M Kubetrbl unit :=
  match names with
  | [] => ret tt
  | nm :: rest =>
      Println (Itoa i +:+ ") " +:+ nm);; printIndexed (i + 1) rest
  end.

(** [readString]: the reader holds the lines still to come. *)
Definition readString : M Kubetrbl (error + string) :=
  k ← getUser;
  match reader k with
  | [] => ret (inl "EOF")
  | line :: rest => setUser (set_reader rest k);; ret (inr (TrimSpace line))
  end.

Definition readInt : M Kubetrbl (InputError + Z) :=
  r ← readString;
  match r with
  | inl e => ret (inl (ReadFailed e))
  | inr str =>
      match Atoi str with
      | inl e => ret (inl (ParseFailed e))
      | inr n => ret (inr n)
      end
  end.

(** The inner loop of [getContainerPort]: the first port of one container
    whose name is the target replaces the port found so far, and [break]
    leaves this loop only. *)
Fixpoint scanPorts (tgt : string) (ports : list ContainerPort)
    (found : ContainerPort) : ContainerPort :=
  match ports with
  | [] => found
  | p :: rest => if decide (tgt = cp_Name p) then p else scanPorts tgt rest found
  end.

(** The outer loop: every container is scanned, in order. *)
Definition scanContainers (tgt : string) (containers : list Container)
    (found : ContainerPort) : ContainerPort :=
  fold_left (fun found cnt => scanPorts tgt (c_Ports cnt) found)
            containers found.

(** The loop of [getControllerPods]. *)
Definition memberPods (tgt : string) (snapshot : list Pod) : list Pod :=
  fold_left
    (fun result p =>
       if decide (tgt = label (pod_Labels p) nameLabel)
       then (result ++ [p])%list else result)
    snapshot [].

(** The defaults [validateContainerPort] writes into the configuration. *)
Definition withDefaults (c : Config) : Config :=
  mkConfig
    (match GroupVersion c with None => Some ("", "v1") | Some gv => Some gv end)
    (if decide (APIPath c = "") then "/api" else APIPath c)
    true.

Definition accessible : string := "✓ Pod port accessible.".
Definition inaccessible : string := "✗ Pod port inaccessible.".

Section Callbacks.

Context (env : Env).

Definition finish : Callback Kubetrbl := fun self =>
  Println "See ya!";; mret None.

Definition welcome : Callback Kubetrbl := fun self =>
  Println "Wecome to Kubetrbl.";;
  Println "Kubetrbl aims to provide a guided method for troubleshooting a Kubernetes deployment.";;
  Println "Kubetrbl's actions are based off of the troubleshooting flow described at https://learnk8s.io/a/troubleshooting-kubernetes.pdf.";;
  Println "";;
  change self "getKubeConfig";;
  mret None.

Definition getKubeConfig : Callback Kubetrbl := fun self =>
  Println "We need to start by connecting to a Kubernetes cluster.";;
  Println "Enter the location of your KUBECONFIG file: ";;
  r ← readString;
  match r with
  | inl err => mret (Some err)
  | inr path =>
      modify (set_cfg path);;
      update self;;
      mret None
  end.

Definition createK8sClient : Callback Kubetrbl := fun self =>
  k ← getUser;
  match BuildConfigFromFlags env (cfg k) with
  | inl err => mret (Some err)
  | inr c =>
      modify (set_config (Some c));;
      match NewForConfig env c with
      | Some err => modify (set_k8sClient false);; mret (Some err)
      | None =>
          modify (set_k8sClient true);;
          change self "getNamespace";;
          mret None
      end
  end.

Definition getNamespace : Callback Kubetrbl := fun self =>
  k ← getUser;
  if k8sClient k then
    match ListNamespaces env with
    | inl err => mret (Some err)
    | inr nms =>
        Println "Available namespaces:";;
        printIndexed 0 nms;;
        Printf "Kubernetes namespace? ";;
        r ← readInt;
        match r with
        | inl err => mret (Some (errorText (Quoting env) err))
        | inr answer =>
            nm ← index nms answer;
            modify (set_namespace nm);;
            change self "countPods";;
            mret None
        end
    end
  else panic nilDeref.

Definition countPods : Callback Kubetrbl := fun self =>
  k ← getUser;
  if k8sClient k then
    match ListPods env (namespace k) with
    | inl err => mret (Some err)
    | inr items =>
        Println ("There are " +:+ Itoa (Z.of_nat (length items)) +:+
                 " pods in the cluster+namespace.");;
        modify (set_pods (Some items));;
        change self "checkPendingPods";;
        mret None
    end
  else panic nilDeref.

Definition checkPendingPods : Callback Kubetrbl := fun self =>
  k ← getUser;
  match pods k with
  | None => panic nilDeref
  | Some items =>
      match List.find (fun pod => bool_decide (pod_Phase pod = "Pending")) items with
      | Some pod => Println ("✗ Pending - " +:+ pod_Name pod);; mret None
      | None =>
          Println "✓ No pods are pending.";;
          change self "checkRunningPods";;
          mret None
      end
  end.

Definition checkRunningPods : Callback Kubetrbl := fun self =>
  k ← getUser;
  match pods k with
  | None => panic nilDeref
  | Some items =>
      match List.find (fun pod => bool_decide (pod_Phase pod <> "Running")) items with
      | Some pod => Println ("### Not running - " +:+ pod_Name pod);; mret None
      | None =>
          Println "✓ All pods are running.";;
          change self "checkReadyPods";;
          mret None
      end
  end.

Definition notReady (c : PodCondition) : bool :=
  bool_decide (pc_Type c = "Ready") && bool_decide (pc_Status c <> "True").

Definition checkReadyPods : Callback Kubetrbl := fun self =>
  k ← getUser;
  match pods k with
  | None => panic nilDeref
  | Some items =>
      match List.find (fun pod => existsb notReady (pod_Conditions pod)) items with
      | Some pod => Println ("### Not ready - " +:+ pod_Name pod);; mret None
      | None =>
          Println "✓ All pods are ready.";;
          change self "getServiceName";;
          mret None
      end
  end.

Definition getServiceName : Callback Kubetrbl := fun self =>
  k ← getUser;
  if k8sClient k then
    match ListServices env (namespace k) with
    | inl err => mret (Some err)
    | inr svcs =>
        Println "Available services: ";;
        printIndexed 0 (svc_Name <$> svcs);;
        Printf "Which service? ";;
        r ← readInt;
        match r with
        | inl err => mret (Some (errorText (Quoting env) err))
        | inr answer =>
            s ← index svcs answer;
            modify (set_svc s);;
            change self "getServicePort";;
            mret None
        end
    end
  else panic nilDeref.

Definition getServicePort : Callback Kubetrbl := fun self =>
  k ← getUser;
  Println "Available ports: ";;
  printIndexed 0 (sp_Name <$> svc_Ports (svc k));;
  Printf "Which port? ";;
  r ← readInt;
  match r with
  | inl err => mret (Some (errorText (Quoting env) err))
  | inr answer =>
      p ← index (svc_Ports (svc k)) answer;
      modify (set_svcPort p);;
      change self "getControllerWorkload";;
      mret None
  end.

Definition getControllerWorkload : Callback Kubetrbl := fun self =>
  k ← getUser;
  let k8sName := label (svc_Selector (svc k)) nameLabel in
  if k8sClient k then
    match GetDeployment env (namespace k) k8sName with
    | inl err => mret (Some err)
    | inr deployment =>
        modify (set_controller (Some deployment));;
        Println ("✓ Found backing Deployment - " +:+ d_Name deployment);;
        change self "getContainerPort";;
        mret None
    end
  else panic nilDeref.

Definition getContainerPort : Callback Kubetrbl := fun self =>
  k ← getUser;
  let tgt := StrVal (sp_TargetPort (svcPort k)) in
  match controller k with
  | None => panic nilDeref
  | Some ctrl =>
      let found := scanContainers tgt (d_Containers ctrl) (containerPort k) in
      setUser (set_containerPort found k);;
      Println ("✓ Identified pod port: " +:+ Itoa (cp_ContainerPort found));;
      change self "getControllerPods";;
      mret None
  end.

Definition getControllerPods : Callback Kubetrbl := fun self =>
  k ← getUser;
  match controller k with
  | None => panic nilDeref
  | Some ctrl =>
      let tgt := label (d_Labels ctrl) nameLabel in
      match pods k with
      | None => panic nilDeref
      | Some items =>
          setUser (set_podList (memberPods tgt items) k);;
          change self "validateContainerPort";;
          mret None
      end
  end.

(** The loop of [validateContainerPort] over the candidate pods. *)
Fixpoint probePods (candidates : list Pod) : M Kubetrbl (option error) :=
  match candidates with
  | [] => mret None
  | pod :: rest =>
      Println ("Checking accessibility of port for pod '" +:+ pod_Name pod +:+ "'.");;
      k ← getUser;
      let portMapping := "8080:" +:+ Itoa (cp_ContainerPort (containerPort k)) in
      match Tunnel env (namespace k) (pod_Name pod) portMapping with
      | NewFails err => mret (Some err)
      | NeverReady =>
          modify (log_tunnel (Started (pod_Name pod) portMapping));;
          block
      | Ready probe =>
          modify (log_tunnel (Started (pod_Name pod) portMapping));;
          modify (log_tunnel (Probed (pod_Name pod)));;
          match probe with
          | inl err => mret (Some err)
          | inr status =>
              Println (if decide (status < 400)%Z then accessible else inaccessible);;
              modify (log_tunnel (Stopped (pod_Name pod)));;
              probePods rest
          end
      end
  end.

Definition validateContainerPort : Callback Kubetrbl := fun self =>
  k ← getUser;
  match config k with
  | None => panic nilDeref
  | Some c =>
      let c' := withDefaults c in
      setUser (set_config (Some c') k);;
      match RESTClientFor env c' with
      | Some err => mret (Some err)
      | None =>
          r ← probePods (podList k);
          match r with
          | Some err => mret (Some err)
          | None => change self "finish";; mret None
          end
      end
  end.

(** The error handler installed by [NewKubetrbl]. *)
Definition reenter : Ops Kubetrbl -> error -> M Kubetrbl unit := fun self err =>
  Println "An error occurred when troubleshooting your Kubernetes deployment.";;
  Println err;;
  m ← get;
  change self (FSM_State m).

Definition onEnter (cb : Callback Kubetrbl) : State Kubetrbl :=
  mkState (Some cb) None None.

Definition NewKubetrbl : FSM Kubetrbl :=
  let machine := mkFSM (StateDirectory (NewFSM (D := Kubetrbl))) reenter in
  let machine := Register "welcome" (onEnter welcome) machine in
  let machine := Register "finish" (onEnter finish) machine in
  let machine :=
    Register "getKubeConfig"
      (mkState (Some getKubeConfig) (Some createK8sClient) None) machine in
  let machine := Register "getNamespace" (onEnter getNamespace) machine in
  let machine := Register "countPods" (onEnter countPods) machine in
  let machine := Register "checkPendingPods" (onEnter checkPendingPods) machine in
  let machine := Register "checkRunningPods" (onEnter checkRunningPods) machine in
  let machine := Register "checkReadyPods" (onEnter checkReadyPods) machine in
  let machine := Register "getServiceName" (onEnter getServiceName) machine in
  let machine := Register "getServicePort" (onEnter getServicePort) machine in
  let machine :=
    Register "getControllerWorkload" (onEnter getControllerWorkload) machine in
  let machine := Register "getContainerPort" (onEnter getContainerPort) machine in
  let machine := Register "getControllerPods" (onEnter getControllerPods) machine in
  let machine :=
    Register "validateContainerPort" (onEnter validateContainerPort) machine in
  machine.

(** [Start], on a fresh machine reading [input]. *)
Definition fresh (input : list string) : Machine Kubetrbl :=
  mkMachine "" [] (newK input).

Definition Start (fuel : nat) : M Kubetrbl unit :=
  Change NewKubetrbl fuel "welcome".

End Callbacks.

(** ** The cluster context of the second variant of package main

    [K8sContext] keeps the connection and the pod snapshot; its methods are
    the queries the callbacks of that variant delegate to.  The fields that
    no method touches are left out. *)

Record K8sContext : Type := mkK8sContext {
  kubeConfigPath : string;
  kc_k8sClient : bool;
  kc_namespace : string;
  kc_config : option Config;
  kc_pods : list Pod
}.

Definition NewK8sContext (path : string) : K8sContext :=
  mkK8sContext path false "" None [].

(** [InitClient]: the configuration is stored and completed with the
    defaults before the client is created from it. *)
Definition InitClient (env : Env) (k : K8sContext) : option error * K8sContext :=
  match BuildConfigFromFlags env (kubeConfigPath k) with
  | inl err => (Some err, k)
  | inr c =>
      let c' := withDefaults c in
      match NewForConfig env c' with
      | Some err =>
          (Some err,
           mkK8sContext (kubeConfigPath k) false (kc_namespace k) (Some c')
             (kc_pods k))
      | None =>
          (None,
           mkK8sContext (kubeConfigPath k) true (kc_namespace k) (Some c')
             (kc_pods k))
      end
  end.

(** [GetPods]: [None] is the nil dereference of a missing client. *)
Definition GetPods (env : Env) (k : K8sContext)
  : option ((list Pod * option error) * K8sContext) :=
  if kc_k8sClient k then
    match ListPods env (kc_namespace k) with
    | inl err => Some (([], Some err), k)
    | inr items =>
        let copied := fold_left (fun acc p => (acc ++ [p])%list) items [] in
        Some ((copied, None),
              mkK8sContext (kubeConfigPath k) (kc_k8sClient k)
                (kc_namespace k) (kc_config k) copied)
    end
  else None.

Definition GetPendingPods (k : K8sContext) : list string * option error :=
  (fold_left
     (fun result pod =>
        if decide (pod_Phase pod = "Pending")
        then (result ++ [pod_Name pod])%list else result)
     (kc_pods k) [],
   None).

Definition GetNonrunningPods (k : K8sContext) : list string * option error :=
  (fold_left
     (fun result pod =>
        if decide (pod_Phase pod <> "Running")
        then (result ++ [pod_Name pod])%list else result)
     (kc_pods k) [],
   None).

(** The name of a pod is appended once for each of its conditions that is a
    Ready condition with a status other than True. *)
Definition GetNotReadyPods (k : K8sContext) : list string * option error :=
  (fold_left
     (fun result pod =>
        fold_left
          (fun result c =>
             if notReady c then (result ++ [pod_Name pod])%list else result)
          (pod_Conditions pod) result)
     (kc_pods k) [],
   None).

(** ** Concrete scenarios *)

(** A two-state machine built on [NewFSM], whose data is a log of the
    callbacks that ran: the [Exit] of state a fails, state b has an
    [Enter]. *)
Definition note (entry : string) : M (list string) unit :=
  l ← getUser; setUser (l ++ [entry])%list.

Definition exitFails : Callback (list string) := fun _ =>
  note "a.Exit";; mret (Some "boom").

Definition enterB : Callback (list string) := fun _ =>
  note "b.Enter";; mret None.

Definition twoStates : FSM (list string) :=
  Register "b" (mkState (Some enterB) None None)
    (Register "a" (mkState None None (Some exitFails)) NewFSM).

Definition inA : Machine (list string) := mkMachine "a" [] [].

(** The quoting of a current release, no rune above U+00FF taken as
    printable; the scenarios type ASCII. *)
Definition latin1 : QuoteRules := mkQuoteRules (fun _ => false) true.

(** A small cluster: three namespaces, one service, one deployment. *)
Definition ready : list PodCondition := [mkPodCondition "Ready" "True"].

Definition web1 : Pod := mkPod "web-1" {[ nameLabel := "web" ]} "Running" ready.
Definition web2 : Pod := mkPod "web-2" {[ nameLabel := "web" ]} "Running" ready.
Definition db1 : Pod := mkPod "db-1" {[ nameLabel := "db" ]} "Running" ready.
Definition bare : Pod := mkPod "bare" ∅ "Running" ready.

Definition cluster (deployment : Deployment) (target : IntOrString)
    (snapshot : list Pod) (tunnel : string -> TunnelAttempt) : Env :=
  mkEnv (fun _ => inr (mkConfig None "" false))
        (fun _ => None)
        (inr ["default"; "kube-system"; "prod"])
        (fun _ => inr snapshot)
        (fun _ => inr [mkService "web" {[ nameLabel := "web" ]}
                         [mkServicePort "http" target]])
        (fun _ _ => inr deployment)
        (fun _ => None)
        (fun _ pod _ => tunnel pod)
        latin1.

Definition status (code : Z) : string -> TunnelAttempt :=
  fun _ => Ready (inr code).

(** Two containers, both with a port named http. *)
Definition twoHttp : Deployment :=
  mkDeployment "web" {[ nameLabel := "web" ]}
    [mkContainer "app" [mkContainerPort "http" 8080];
     mkContainer "sidecar" [mkContainerPort "http" 9090]].

(** One container with one port named http. *)
Definition oneHttp : Deployment :=
  mkDeployment "web" {[ nameLabel := "web" ]}
    [mkContainer "app" [mkContainerPort "http" 8080]].


(** The probe of web-1 ends in a request error. *)
Definition refused : string -> TunnelAttempt :=
  fun pod =>
    if decide (pod = "web-1") then Ready (inl "connection refused")
    else Ready (inr 200%Z).

(** The machine as [getControllerPods] leaves it when the candidates are
    web-1 and web-2. *)
Definition beforeValidate : Machine Kubetrbl :=
  mkMachine "validateContainerPort" []
    (mkKubetrbl [] "/cfg" true "prod" (Some (mkConfig None "" false))
       zeroService (mkServicePort "http" (FromString "http")) (Some oneHttp)
       (mkContainerPort "http" 8080) [web1; web2] (Some [web1; web2; db1]) []).

(** The lines [printIndexed] prints. *)
Fixpoint listing (i : Z) (names : list string) : list Output :=
  match names with
  | [] => []
  | nm :: rest => Line (Itoa i +:+ ") " +:+ nm) :: listing (i + 1) rest
  end.

Definition checking (pod : Pod) : Output :=
  Line ("Checking accessibility of port for pod '" +:+ pod_Name pod +:+ "'.").

Definition verdict (code : Z) : Output :=
  Line (if decide (code < 400)%Z then accessible else inaccessible).

(** What a pod probed to a status code adds to standard output and to the
    tunnel log. *)
Definition reports (probed : list (Pod * Z)) : list Output :=
  flat_map (fun '(pod, code) => [checking pod; verdict code]) probed.

Definition lifecycles (mapping : string) (probed : list Pod) : list TunnelEvent :=
  flat_map
    (fun pod => [Started (pod_Name pod) mapping; Probed (pod_Name pod);
                 Stopped (pod_Name pod)])
    probed.

Definition portMappingOf (k : Kubetrbl) : string :=
  "8080:" +:+ Itoa (cp_ContainerPort (containerPort k)).

Definition say (o : Output) (m : Machine Kubetrbl) : Machine Kubetrbl :=
  mkMachine (FSM_State m) (stdout m ++ [o]) (user m).

Global Instance Output_eq_dec : EqDecision Output.
Proof. solve_decision. Defined.

Definition errorBanner : Output :=
  Line "An error occurred when troubleshooting your Kubernetes deployment.".

Definition identified (p : ContainerPort) : Output :=
  Line ("✓ Identified pod port: " +:+ Itoa (cp_ContainerPort p)).

(** The machine as [getControllerWorkload] leaves it in a namespace without
    pods, the deployment found being [oneHttp]. *)
Definition beforeContainerPort (target : IntOrString) : Machine Kubetrbl :=
  mkMachine "getControllerWorkload" []
    (mkKubetrbl [] "/cfg" true "prod" (Some (mkConfig None "" false))
       (mkService "web" {[ nameLabel := "web" ]} [mkServicePort "http" target])
       (mkServicePort "http" target) (Some oneHttp) zeroContainerPort []
       (Some []) []).

(** The machine as [createK8sClient] leaves it, with the lines [input] still
    to be read. *)
Definition beforeNamespace (input : list string) : Machine Kubetrbl :=
  mkMachine "getKubeConfig" []
    (mkKubetrbl input "/cfg" true "" (Some (mkConfig None "" false))
       zeroService zeroServicePort None zeroContainerPort [] None []).

Global Instance TunnelEvent_eq_dec : EqDecision TunnelEvent.
Proof. solve_decision. Defined.

(** The probe of web-1 answers 503, every other probe 200. *)
Definition unavailable : string -> TunnelAttempt :=
  fun pod =>
    if decide (pod = "web-1") then Ready (inr 503%Z) else Ready (inr 200%Z).

Definition log_tunnels (es : list TunnelEvent) (k : Kubetrbl) : Kubetrbl :=
  mkKubetrbl (reader k) (cfg k) (k8sClient k) (namespace k) (config k)
    (svc k) (svcPort k) (controller k) (containerPort k) (podList k)
    (pods k) (tunnels k ++ es).

(** The membership test in the words of the specification: the pod's value
    for the name label equals the controller's, a missing label reading as
    the empty string. *)
Definition sameName (ctrl : Deployment) (p : Pod) : Prop :=
  label (pod_Labels p) nameLabel = label (d_Labels ctrl) nameLabel.

Global Instance sameName_dec ctrl p : Decision (sameName ctrl p).
Proof. unfold sameName. apply _. Defined.

(** A pod without the name label. *)
Definition lacksName (p : Pod) : Prop := pod_Labels p !! nameLabel = None.

Global Instance lacksName_dec p : Decision (lacksName p).
Proof. unfold lacksName. apply _. Defined.

(** A pod whose name label reads as the empty string: the label is missing
    or carries the empty value. *)
Definition emptyName (p : Pod) : Prop :=
  pod_Labels p !! nameLabel = None \/ pod_Labels p !! nameLabel = Some "".

Global Instance emptyName_dec p : Decision (emptyName p).
Proof. unfold emptyName. apply _. Defined.

(** The machine as [countPods] and [getControllerWorkload] leave it for a
    deployment and a snapshot. *)
Definition beforeMembers (ctrl : Deployment) (snapshot : list Pod)
  : Machine Kubetrbl :=
  mkMachine "getContainerPort" []
    (mkKubetrbl [] "/cfg" true "prod" (Some (mkConfig None "" false))
       zeroService (mkServicePort "http" (FromString "http")) (Some ctrl)
       (mkContainerPort "http" 8080) [] (Some snapshot) []).

(** The machine with lines added to standard output. *)
Definition says (os : list Output) (m : Machine Kubetrbl) : Machine Kubetrbl :=
  mkMachine (FSM_State m) (stdout m ++ os) (user m).

(** The machine on entering a state. *)
Definition entering (name : string) (m : Machine Kubetrbl) : Machine Kubetrbl :=
  mkMachine name (stdout m) (user m).

(** The names [NewKubetrbl] registers. *)
Definition stateNames : list string :=
  ["welcome"; "finish"; "getKubeConfig"; "getNamespace"; "countPods";
   "checkPendingPods"; "checkRunningPods"; "checkReadyPods"; "getServiceName";
   "getServicePort"; "getControllerWorkload"; "getContainerPort";
   "getControllerPods"; "validateContainerPort"].

(** A pod that is running and none of whose Ready conditions is other than
    True. *)
Definition healthy (p : Pod) : Prop :=
  pod_Phase p = "Running" /\ existsb notReady (pod_Conditions p) = false.

(** Another pod, pending. *)
Definition job1 : Pod := mkPod "job-1" {[ nameLabel := "job" ]} "Pending" [].

(** A pod that runs but is not ready. *)
Definition slow1 : Pod :=
  mkPod "slow-1" {[ nameLabel := "web" ]} "Running"
    [mkPodCondition "Ready" "False"].

(** The machine as the selection of the namespace leaves it for a
    snapshot. *)
Definition withSnapshot (state : string) (snapshot : list Pod)
  : Machine Kubetrbl :=
  mkMachine state []
    (mkKubetrbl [] "/cfg" true "prod" (Some (mkConfig None "" false))
       zeroService zeroServicePort None zeroContainerPort [] (Some snapshot) []).

(** The machine before a service port is selected, [input] to be read. *)
Definition beforePort (ports : list ServicePort) (input : list string)
  : Machine Kubetrbl :=
  mkMachine "getServiceName" []
    (mkKubetrbl input "/cfg" true "prod" (Some (mkConfig None "" false))
       (mkService "web" ∅ ports) zeroServicePort None zeroContainerPort []
       (Some []) []).

(** A cluster whose configuration file cannot be loaded. *)
Definition noConfig : Env :=
  mkEnv (fun _ => inl "no such file") (fun _ => None) (inr []) (fun _ => inr [])
        (fun _ => inr []) (fun _ _ => inl "not found") (fun _ => None)
        (fun _ _ _ => NeverReady) latin1.

(** A forwarder that never becomes ready, and one that cannot be built. *)
Definition stuck : string -> TunnelAttempt := fun _ => NeverReady.
Definition unbuilt : string -> TunnelAttempt := fun _ => NewFails "bad port".

(** The machine of [NewFSM] over a log of callbacks, nothing registered. *)
Definition noStates : FSM (list string) := NewFSM.

(** An outcome that stays within the registered states: a run that returns
    is in a registered state, and a panic is not the one of [Change] on a
    name without state. *)
Definition sound {A} (o : Outcome Kubetrbl A) : Prop :=
  match o with
  | Done _ m' => FSM_State m' ∈ stateNames
  | Panicked msg _ => msg <> "Error!"
  | Blocked _ => True
  | OutOfFuel => True
  end.

Definition soundOps (self : Ops Kubetrbl) : Prop :=
  (forall name m, name ∈ stateNames -> sound (change self name m)) /\
  (forall m, FSM_State m ∈ stateNames -> sound (update self m)).

Definition ok {A} (c : M Kubetrbl A) : Prop :=
  forall m, FSM_State m ∈ stateNames -> sound (c m).

(** The text of the run-time panic of a slice access [l[i]] outside the
    [n] elements of the slice. *)
Definition indexOutOfRange (i : Z) (n : nat) : string :=
  if decide (i < 0)%Z then
    "runtime error: index out of range [" +:+ Itoa i +:+ "]"
  else
    "runtime error: index out of range [" +:+ Itoa i +:+ "] with length "
      +:+ Itoa (Z.of_nat n).

(** Membership in the words of the specification, on the label maps
    themselves: the pod's value for the key app.kubernetes.io/name equals the
    controller's, a map without the key counting as the empty value. *)
Definition sharesName (ctrl : Deployment) (p : Pod) : Prop :=
  match d_Labels ctrl !! "app.kubernetes.io/name",
        pod_Labels p !! "app.kubernetes.io/name" with
  | Some wanted, Some value => value = wanted
  | Some wanted, None => wanted = ""
  | None, Some value => value = ""
  | None, None => True
  end.

Global Instance sharesName_dec ctrl p : Decision (sharesName ctrl p).
Proof.
  unfold sharesName.
  destruct (d_Labels ctrl !! "app.kubernetes.io/name"),
           (pod_Labels p !! "app.kubernetes.io/name"); apply _.
Defined.

(** A deployment whose only container port has no name. *)
Definition unnamedPort : Deployment :=
  mkDeployment "web" {[ nameLabel := "web" ]}
    [mkContainer "app" [mkContainerPort "" 8080]].

(** The text made of the given bytes. *)
Definition bytes (l : list nat) : string :=
  foldr (fun n rest => String (ascii_of_nat n) rest) EmptyString l.

(** The two-state machine with a third state registered under the empty
    name. *)
Definition threeStates : FSM (list string) :=
  Register "" (mkState (Some enterB) None None) twoStates.

(** ** Properties of the state machine *)

Create HintDb run discriminated.

#[global] Hint Unfold mbind mret M_bind M_ret bind ret panic block emit Println
  Printf setState getUser setUser get modify invoke : run.

Ltac run :=
  repeat (progress (autounfold with run in *;
                    cbn [user FSM_State stdout fst snd] in * )).

Section MachineFacts.

Context {D : Type}.
Implicit Types (f : FSM D) (m : Machine D) (self : Ops D).

Lemma Change_unfold f fuel name :
  Change f (S fuel) name = Change_body f (ops f fuel) name.
Proof. reflexivity. Qed.

Lemma Update_unfold f fuel :
  FSM_Update f (S fuel) = Update_body f (ops f fuel).
Proof. reflexivity. Qed.

Lemma active_idle f sel m : FSM_State m = "" -> active f sel m = None.
Proof. intros H. unfold active. rewrite H. by rewrite decide_True. Qed.

(** [Change] to a name that is not registered: whatever the exit phase
    leaves, the call ends in the panic. *)
Lemma Change_unregistered f fuel name m :
  StateDirectory f !! name = None ->
  Change f (S fuel) name m =
    match exitPhase f (ops f fuel) m with
    | Done _ m1 =>
        Panicked "Error!"
          (mkMachine (FSM_State m1) (stdout m1 ++ [NoStateLine name]) (user m1))
    | Panicked msg m1 => Panicked msg m1
    | Blocked m1 => Blocked m1
    | OutOfFuel => OutOfFuel
    end.
Proof.
  intros Hnone. rewrite Change_unfold. unfold Change_body, bind at 1.
  destruct (exitPhase f (ops f fuel) m); try reflexivity.
  rewrite Hnone. reflexivity.
Qed.

(** [Change] to a registered state with an [Enter], from a state without
    [Exit]: the target becomes current and its [Enter] runs. *)
Lemma Change_enters f fuel name m target onEnter :
  active f Exit m = None ->
  StateDirectory f !! name = Some target ->
  name <> "" ->
  Enter target = Some onEnter ->
  Change f (S fuel) name m =
    invoke f (ops f fuel) onEnter (mkMachine name (stdout m) (user m)).
Proof.
  intros Hexit Hreg Hname Henter.
  rewrite Change_unfold. unfold Change_body, bind at 1, exitPhase.
  rewrite Hexit, Hreg. unfold bind at 1, setState, enterPhase, active, dirGet.
  cbn [FSM_State]. rewrite decide_False by done. rewrite Hreg.
  cbn [default from_option id]. by rewrite Henter.
Qed.

End MachineFacts.

(** C8: [Change] to a name with no registered state never returns
    normally: once the exit phase of the current state is over it prints the
    line and panics, and nothing else can come out of it than what the exit
    phase itself ends in; [Update] on a machine with no active state returns
    normally, having only printed the warning. *)
Theorem Change_unregistered_fatal_Update_idle_warns
    {D : Type} (f : FSM D) (fuel : nat) (name : string) (m idle : Machine D)
    (Hunregistered : StateDirectory f !! name = None)
    (Hidle : FSM_State idle = "") :
  (forall n m', Change f n name m <> Done tt m') /\
  Change f (S fuel) name m =
    match exitPhase f (ops f fuel) m with
    | Done _ m1 =>
        Panicked "Error!"
          (mkMachine (FSM_State m1) (stdout m1 ++ [NoStateLine name]) (user m1))
    | Panicked msg m1 => Panicked msg m1
    | Blocked m1 => Blocked m1
    | OutOfFuel => OutOfFuel
    end /\
  FSM_Update f (S fuel) idle =
    Done tt
      (mkMachine (FSM_State idle)
         (stdout idle ++ [Line "Update() called on FSM without active state."])
         (user idle)).
Proof.
  split; [|split].
  - intros [|n] m'; [discriminate|].
    rewrite Change_unregistered by done.
    destruct (exitPhase f (ops f n) m); discriminate.
  - by apply Change_unregistered.
  - rewrite Update_unfold. unfold Update_body.
    by rewrite active_idle.
Qed.

Lemma Change_unregistered_fatal_Update_idle_warns_witness :
  StateDirectory twoStates !! "c" = None /\
  (forall n m', Change twoStates n "c" (mkMachine "b" [] []) <> Done tt m') /\
  Change twoStates 1 "c" (mkMachine "b" [] []) =
    Panicked "Error!" (mkMachine "b" [NoStateLine "c"] []) /\
  FSM_Update twoStates 1 (mkMachine "" [] []) =
    Done tt
      (mkMachine "" [Line "Update() called on FSM without active state."] []).
Proof.
  split; [vm_compute; reflexivity|].
  exact (Change_unregistered_fatal_Update_idle_warns
           twoStates 0 "c" (mkMachine "b" [] []) (mkMachine "" [] [])
           eq_refl eq_refl).
Defined.

(** C2, as the code has it: when the [Exit] of the active state fails,
    [Change] hands the failure to the error handler and, once the handler
    has returned, goes on with the transition: the target becomes the
    current state, and its [Enter] is invoked when it has one and the name is
    not the empty string; otherwise [Change] returns with the target
    current. *)
Theorem Change_exit_failure_continues
    {D : Type} (f : FSM D) (fuel : nat) (name : string) (m m1 m2 : Machine D)
    (onExit : Callback D) (target : State D) (e : error)
    (Hactive : active f Exit m = Some onExit)
    (Hfails : onExit (ops f fuel) m = Done (Some e) m1)
    (Hhandled : ErrorHandler f (ops f fuel) e m1 = Done tt m2)
    (Hregistered : StateDirectory f !! name = Some target) :
  Change f (S fuel) name m =
    match (if decide (name = "") then None else Enter target) with
    | Some onEnter =>
        invoke f (ops f fuel) onEnter (mkMachine name (stdout m2) (user m2))
    | None => Done tt (mkMachine name (stdout m2) (user m2))
    end.
Proof.
  rewrite Change_unfold. unfold Change_body, bind at 1.
  unfold exitPhase. rewrite Hactive.
  unfold invoke at 1, bind at 1. rewrite Hfails, Hhandled, Hregistered.
  unfold bind at 1, setState, enterPhase, active, dirGet.
  cbn [FSM_State stdout user].
  destruct (decide (name = "")) as [Hempty|Hname]; [reflexivity|].
  rewrite Hregistered. cbn [default from_option id]. reflexivity.
Qed.

Lemma Change_exit_failure_continues_witness :
  Change twoStates 1 "b" inA =
    invoke twoStates (ops twoStates 0) enterB
      (mkMachine "b" [Line "Error: boom"] ["a.Exit"]).
Proof.
  exact (Change_exit_failure_continues twoStates 0 "b" inA
           (mkMachine "a" [] ["a.Exit"])
           (mkMachine "a" [Line "Error: boom"] ["a.Exit"])
           exitFails (mkState (Some enterB) None None) "boom"
           eq_refl eq_refl eq_refl eq_refl).
Defined.

(** C2, the claim as written fails: in the two-state machine the [Exit] of
    state a fails, yet [Change] to b ends with b current and the [Enter] of b
    run, after the handler printed the failure. *)
Lemma Change_exit_failure_not_aborted :
  exists m',
    Change twoStates 1 "b" inA = Done tt m' /\
    FSM_State m' = "b" /\
    FSM_State m' <> FSM_State inA /\
    user m' = ["a.Exit"; "b.Enter"] /\
    stdout m' = [Line "Error: boom"].
Proof.
  eexists. split; [vm_compute; reflexivity|].
  repeat split. discriminate.
Qed.

(** In the machine with a state registered under the empty name, the change
    to that state after the failed [Exit] of a makes it current and runs no
    [Enter], although the state has one. *)
Example Change_to_empty_name_runs_no_Enter :
  Enter (dirGet threeStates "") = Some enterB /\
  Change threeStates 1 "" inA =
    Done tt (mkMachine "" [Line "Error: boom"] ["a.Exit"]).
Proof. split; vm_compute; reflexivity. Qed.

(** ** Properties of the resolution steps *)

Lemma set_containerPort_same k : set_containerPort (containerPort k) k = k.
Proof. by destruct k. Qed.

Lemma scanPorts_no_match tgt ports found :
  Forall (fun p => cp_Name p <> tgt) ports ->
  scanPorts tgt ports found = found.
Proof.
  induction 1 as [|p ports Hp _ IH]; [done|].
  cbn. rewrite decide_False by congruence. exact IH.
Qed.

Lemma scanPorts_first_match tgt ports found p :
  List.find (fun q => bool_decide (tgt = cp_Name q)) ports = Some p ->
  scanPorts tgt ports found = p.
Proof.
  induction ports as [|q ports IH]; [done|]. cbn.
  destruct (decide (tgt = cp_Name q)) as [Heq|Hne].
  - rewrite bool_decide_eq_true_2 by done. congruence.
  - rewrite bool_decide_eq_false_2 by done. exact IH.
Qed.

Lemma scanContainers_snoc tgt containers cnt found :
  scanContainers tgt (containers ++ [cnt]) found =
    scanPorts tgt (c_Ports cnt) (scanContainers tgt containers found).
Proof. unfold scanContainers. by rewrite fold_left_app. Qed.

Lemma scanContainers_no_match tgt containers found :
  Forall (fun cnt => Forall (fun p => cp_Name p <> tgt) (c_Ports cnt)) containers ->
  scanContainers tgt containers found = found.
Proof.
  unfold scanContainers. intros H. revert found.
  induction H as [|cnt containers Hcnt _ IH]; intros found; [done|].
  cbn. rewrite scanPorts_no_match by done. apply IH.
Qed.

(** Across containers the scan keeps the match of the last container that
    has one: whatever came before, a matching port of the last container is
    the result. *)
Lemma scanContainers_last_container_wins tgt containers cnt found p :
  List.find (fun q => bool_decide (tgt = cp_Name q)) (c_Ports cnt) = Some p ->
  scanContainers tgt (containers ++ [cnt]) found = p.
Proof.
  intros Hp. rewrite scanContainers_snoc. by apply scanPorts_first_match.
Qed.

(** What one call of [getContainerPort] does. *)
Lemma getContainerPort_run (self : Ops Kubetrbl) m ctrl :
  controller (user m) = Some ctrl ->
  let found :=
    scanContainers (StrVal (sp_TargetPort (svcPort (user m))))
      (d_Containers ctrl) (containerPort (user m)) in
  getContainerPort self m =
    (change self "getControllerPods";; mret None)
      (mkMachine (FSM_State m) (stdout m ++ [identified found])
         (set_containerPort found (user m))).
Proof.
  intros Hctrl found. unfold getContainerPort. run. rewrite Hctrl. run.
  reflexivity.
Qed.

(** C1, on the code: with two containers that both expose a port named http,
    on 8080 and then on 9090, the two loops of [getContainerPort] end on the
    port of the second container, and a whole run on such a deployment ends
    with 9090 as the container port and forwards to it. *)
Theorem getContainerPort_two_http_takes_second :
  scanContainers "http" (d_Containers twoHttp) zeroContainerPort =
    mkContainerPort "http" 9090 /\
  exists m',
    Start (cluster twoHttp (FromString "http") [web1; web2; db1] (status 200))
          20 (fresh ["/cfg"; "2"; "0"; "0"]) = Done tt m' /\
    FSM_State m' = "finish" /\
    containerPort (user m') = mkContainerPort "http" 9090 /\
    bool_decide (identified (mkContainerPort "http" 9090) ∈ stdout m') = true /\
    tunnels (user m') =
      lifecycles "8080:9090" [web1; web2].
Proof.
  split; [reflexivity|].
  eexists. split; [vm_compute; reflexivity|].
  repeat split; vm_compute; reflexivity.
Qed.

(** C5, as the code has it: when no container port is named like the
    target, [getContainerPort] returns no error: it leaves the container
    port as it was, prints its number and goes on to getControllerPods. *)
Theorem getContainerPort_no_match_advances
    (self : Ops Kubetrbl) (m : Machine Kubetrbl) (ctrl : Deployment)
    (tgt : string)
    (Hctrl : controller (user m) = Some ctrl)
    (Htgt : sp_TargetPort (svcPort (user m)) = FromString tgt)
    (Hnone : Forall (fun cnt => Forall (fun p => cp_Name p <> tgt) (c_Ports cnt))
                    (d_Containers ctrl)) :
  getContainerPort self m =
    (change self "getControllerPods";; mret None)
      (mkMachine (FSM_State m)
         (stdout m ++ [identified (containerPort (user m))]) (user m)).
Proof.
  rewrite (getContainerPort_run self m ctrl Hctrl). cbn zeta.
  rewrite Htgt. cbn [StrVal].
  rewrite scanContainers_no_match by done.
  by rewrite set_containerPort_same.
Qed.

(** C6, as the code has it: the number of a numeric target is never read.
    The scan looks for a port with the empty name, so the port resolved is
    the same whatever the number: when no container port has the empty name
    the container port stays as it was, and otherwise it is the first
    unnamed port of the last container that has one. *)
Theorem getContainerPort_numeric_target_ignored
    (self : Ops Kubetrbl) (m : Machine Kubetrbl) (ctrl : Deployment) (n : Z)
    (Hctrl : controller (user m) = Some ctrl)
    (Htgt : sp_TargetPort (svcPort (user m)) = FromInt n) :
  (exists found,
     getContainerPort self m =
       (change self "getControllerPods";; mret None)
         (mkMachine (FSM_State m) (stdout m ++ [identified found])
            (set_containerPort found (user m))) /\
     (Forall (fun cnt => Forall (fun p => cp_Name p <> "") (c_Ports cnt))
             (d_Containers ctrl) ->
      found = containerPort (user m)) /\
     (forall earlier later cnt before after p,
        d_Containers ctrl = (earlier ++ cnt :: later)%list ->
        c_Ports cnt = (before ++ p :: after)%list ->
        Forall (fun q => cp_Name q <> "") before ->
        cp_Name p = "" ->
        Forall (fun c => Forall (fun q => cp_Name q <> "") (c_Ports c)) later ->
        found = p)) /\
  (Forall (fun cnt => Forall (fun p => cp_Name p <> "") (c_Ports cnt))
          (d_Containers ctrl) ->
   getContainerPort self m =
     (change self "getControllerPods";; mret None)
       (mkMachine (FSM_State m)
          (stdout m ++ [identified (containerPort (user m))]) (user m))).
Proof.
  pose proof (getContainerPort_run self m ctrl Hctrl) as Hrun. cbn zeta in Hrun.
  rewrite Htgt in Hrun. cbn [StrVal] in Hrun.
  split.
  - eexists. split; [exact Hrun|]. split.
    + intros Hnamed. by apply scanContainers_no_match.
    + intros earlier later cnt before after p Hcs Hports Hbefore Hp Hlater.
      rewrite Hcs. unfold scanContainers. rewrite fold_left_app.
      cbn [fold_left].
      fold (scanContainers "" earlier (containerPort (user m))).
      fold (scanContainers "" later
              (scanPorts "" (c_Ports cnt)
                 (scanContainers "" earlier (containerPort (user m))))).
      rewrite scanContainers_no_match by done. rewrite Hports.
      clear Hports Hcs. induction Hbefore as [|q before Hq _ IH]; cbn.
      * by rewrite decide_True.
      * by rewrite decide_False by congruence.
  - intros Hnamed. rewrite Hrun.
    rewrite scanContainers_no_match by done.
    by rewrite set_containerPort_same.
Qed.

Lemma getContainerPort_no_match_advances_witness :
  getContainerPort (ops (NewKubetrbl (cluster oneHttp (FromString "metrics") [] (status 200))) 3)
      (beforeContainerPort (FromString "metrics")) =
    (change (ops (NewKubetrbl (cluster oneHttp (FromString "metrics") [] (status 200))) 3)
            "getControllerPods";; mret None)
      (mkMachine "getControllerWorkload" [identified zeroContainerPort]
         (user (beforeContainerPort (FromString "metrics")))).
Proof.
  apply (getContainerPort_no_match_advances _
           (beforeContainerPort (FromString "metrics")) oneHttp "metrics").
  - reflexivity.
  - reflexivity.
  - repeat constructor; discriminate.
Defined.

(** C5, the claim as written fails: the service port targets the name
    metrics, the only container port is named http, and the run reports no
    failure: it prints port 0 and goes on to the end with the zero port. *)
Lemma getContainerPort_missing_name_not_reported :
  exists m',
    Start (cluster oneHttp (FromString "metrics") [] (status 200))
          20 (fresh ["/cfg"; "2"; "0"; "0"]) = Done tt m' /\
    FSM_State m' = "finish" /\
    containerPort (user m') = zeroContainerPort /\
    bool_decide (identified zeroContainerPort ∈ stdout m') = true /\
    bool_decide (errorBanner ∈ stdout m') = false.
Proof.
  eexists. split; [vm_compute; reflexivity|].
  repeat split; vm_compute; reflexivity.
Qed.

Lemma getContainerPort_numeric_target_ignored_witness :
  getContainerPort (ops (NewKubetrbl (cluster oneHttp (FromInt 8080) [] (status 200))) 3)
      (beforeContainerPort (FromInt 8080)) =
    (change (ops (NewKubetrbl (cluster oneHttp (FromInt 8080) [] (status 200))) 3)
            "getControllerPods";; mret None)
      (mkMachine "getControllerWorkload" [identified zeroContainerPort]
         (user (beforeContainerPort (FromInt 8080)))).
Proof.
  apply (proj2 (getContainerPort_numeric_target_ignored _
                  (beforeContainerPort (FromInt 8080)) oneHttp 8080
                  eq_refl eq_refl)).
  repeat constructor; discriminate.
Defined.

(** C6, the claim as written fails: the service port targets the number
    8080 and the run ends with container port 0, not 8080. *)
Lemma getContainerPort_numeric_target_not_returned :
  exists m',
    Start (cluster oneHttp (FromInt 8080) [] (status 200))
          20 (fresh ["/cfg"; "2"; "0"; "0"]) = Done tt m' /\
    FSM_State m' = "finish" /\
    svcPort (user m') = mkServicePort "http" (FromInt 8080) /\
    cp_ContainerPort (containerPort (user m')) = 0%Z /\
    cp_ContainerPort (containerPort (user m')) <> 8080%Z.
Proof.
  eexists. split; [vm_compute; reflexivity|].
  repeat split; try (vm_compute; reflexivity). vm_compute. discriminate.
Qed.

(** A container port without a name is what every numeric target resolves
    to: the targets 9090 and 8080 both end with the unnamed port 8080 of the
    deployment. *)
Example getContainerPort_unnamed_port_taken :
  forall n, n = 9090%Z \/ n = 8080%Z ->
    exists m',
      Start (cluster unnamedPort (FromInt n) [] (status 200))
            20 (fresh ["/cfg"; "2"; "0"; "0"]) = Done tt m' /\
      FSM_State m' = "finish" /\
      containerPort (user m') = mkContainerPort "" 8080.
Proof.
  intros n [->| ->]; (eexists; split; [vm_compute; reflexivity|]);
    split; reflexivity.
Qed.

(** ** Properties of the selection steps *)

Lemma printIndexed_run i names (m : Machine Kubetrbl) :
  printIndexed i names m =
    Done tt (mkMachine (FSM_State m) (stdout m ++ listing i names) (user m)).
Proof.
  revert i m. induction names as [|nm rest IH]; intros i m; cbn [printIndexed listing].
  - run. rewrite app_nil_r. by destruct m.
  - run. rewrite IH. cbn. by rewrite <- app_assoc.
Qed.

(** No state of the program has an [Exit] callback. *)
Lemma NewKubetrbl_no_Exit env name :
  Exit (dirGet (NewKubetrbl env) name) = None.
Proof.
  assert (map_Forall (fun _ st => Exit st = None)
            (StateDirectory (NewKubetrbl env))) as Hall.
  { unfold NewKubetrbl, Register. cbn.
    repeat (apply map_Forall_insert_2; [reflexivity|]).
    apply map_Forall_empty. }
  unfold dirGet. destruct (StateDirectory (NewKubetrbl env) !! name) eqn:Hl.
  - exact (Hall _ _ Hl).
  - reflexivity.
Qed.

Lemma NewKubetrbl_exitPhase env self m :
  exitPhase (NewKubetrbl env) self m = Done tt m.
Proof.
  unfold exitPhase, active. destruct (decide (FSM_State m = "")); [done|].
  by rewrite NewKubetrbl_no_Exit.
Qed.

Lemma NewKubetrbl_getNamespace env :
  StateDirectory (NewKubetrbl env) !! "getNamespace" =
    Some (onEnter (getNamespace env)).
Proof. reflexivity. Qed.

Lemma index_panics {A} (l : list A) (i : Z) (m : Machine Kubetrbl) :
  ~ (0 <= i < Z.of_nat (length l))%Z ->
  index l i m = Panicked (indexOutOfRange i (length l)) m.
Proof.
  intros Hout. unfold index, indexOutOfRange.
  destruct (decide (i < 0)%Z) as [Hneg|Hpos]; [reflexivity|].
  by rewrite (lookup_ge_None_2 l (Z.to_nat i)) by lia.
Qed.

(** One call of [getNamespace] whose answer is no position of the list. *)
Lemma getNamespace_out_of_range env (self : Ops Kubetrbl) m nms line rest answer :
  k8sClient (user m) = true ->
  ListNamespaces env = inr nms ->
  reader (user m) = line :: rest ->
  Atoi (TrimSpace line) = inr answer ->
  ~ (0 <= answer < Z.of_nat (length nms))%Z ->
  getNamespace env self m =
    Panicked (indexOutOfRange answer (length nms))
      (mkMachine (FSM_State m)
         (stdout m ++ Line "Available namespaces:" :: listing 0 nms ++
                      [Text "Kubernetes namespace? "])%list
         (set_reader rest (user m))).
Proof.
  intros Hclient Hlist Hinput Hparsed Hrange.
  unfold getNamespace. run.
  rewrite Hclient, Hlist. run.
  rewrite printIndexed_run. unfold readInt, readString. run.
  cbn [user]. rewrite Hinput. run. rewrite Hparsed. run.
  rewrite index_panics by done. cbn. rewrite <- !app_assoc. reflexivity.
Qed.

(** For every index outside the displayed list, [getNamespace] panics on
    the slice access with the index-out-of-range message of the run time.
    Nothing is handed to the error handler, nothing is printed after the
    prompt, the listing is not shown again, and the namespace is what it
    was. *)
Theorem getNamespace_index_out_of_range_panics
    (env : Env) (fuel : nat) (m : Machine Kubetrbl) (nms : list string)
    (line : string) (rest : list string) (answer : Z)
    (Hclient : k8sClient (user m) = true)
    (Hlist : ListNamespaces env = inr nms)
    (Hinput : reader (user m) = line :: rest)
    (Hparsed : Atoi (TrimSpace line) = inr answer)
    (Hrange : ~ (0 <= answer < Z.of_nat (length nms))%Z) :
  exists m',
    Change (NewKubetrbl env) (S fuel) "getNamespace" m =
      Panicked (indexOutOfRange answer (length nms)) m' /\
    FSM_State m' = "getNamespace" /\
    namespace (user m') = namespace (user m) /\
    stdout m' =
      (stdout m ++ Line "Available namespaces:" :: listing 0 nms ++
                   [Text "Kubernetes namespace? "])%list.
Proof.
  pose proof (getNamespace_out_of_range env (ops (NewKubetrbl env) fuel)
                (mkMachine "getNamespace" (stdout m) (user m)) nms line rest
                answer Hclient Hlist Hinput Hparsed Hrange) as Hpanic.
  eexists. split.
  - rewrite (Change_enters _ _ _ _ (onEnter (getNamespace env)) (getNamespace env)).
    + unfold invoke, bind. rewrite Hpanic. reflexivity.
    + unfold active. destruct (decide (FSM_State m = "")); [done|].
      apply NewKubetrbl_no_Exit.
    + apply NewKubetrbl_getNamespace.
    + discriminate.
    + reflexivity.
  - cbn. repeat split.
Qed.

Lemma getNamespace_index_out_of_range_panics_witness :
  exists m',
    Change (NewKubetrbl (cluster oneHttp (FromString "http") [web1] (status 200)))
           1 "getNamespace" (beforeNamespace ["7"]) =
      Panicked "runtime error: index out of range [7] with length 3" m' /\
    FSM_State m' = "getNamespace" /\
    namespace (user m') = "" /\
    stdout m' =
      [Line "Available namespaces:"; Line "0) default"; Line "1) kube-system";
       Line "2) prod"; Text "Kubernetes namespace? "].
Proof.
  apply (getNamespace_index_out_of_range_panics
           (cluster oneHttp (FromString "http") [web1] (status 200)) 0
           (beforeNamespace ["7"]) ["default"; "kube-system"; "prod"]
           "7" [] 7).
  - reflexivity.
  - reflexivity.
  - reflexivity.
  - vm_compute; reflexivity.
  - cbn; lia.
Defined.

(** C7, on the code: with three namespaces listed and the answer 7, the run
    ends in the index-out-of-range panic inside getNamespace: the error
    handler printed nothing, the list was displayed once only, and the next
    line of input was never read.  An answer that is no number, in the same
    step, is handed to the handler instead: the list is displayed again, the
    next answer is read and the run goes on to its end. *)
Theorem getNamespace_index_7_of_3_crashes :
  (exists m',
     Start (cluster oneHttp (FromString "http") [web1] (status 200))
           20 (fresh ["/cfg"; "7"; "0"]) =
       Panicked "runtime error: index out of range [7] with length 3" m' /\
     FSM_State m' = "getNamespace" /\
     namespace (user m') = "" /\
     reader (user m') = ["0"] /\
     bool_decide (errorBanner ∈ stdout m') = false /\
     length (filter (fun o => o = Line "Available namespaces:") (stdout m')) = 1) /\
  (exists m',
     Start (cluster oneHttp (FromString "http") [web1] (status 200))
           20 (fresh ["/cfg"; "seven"; "2"; "0"; "0"]) = Done tt m' /\
     FSM_State m' = "finish" /\
     namespace (user m') = "prod" /\
     bool_decide (errorBanner ∈ stdout m') = true /\
     length (filter (fun o => o = Line "Available namespaces:") (stdout m')) = 2).
Proof.
  split.
  - eexists. split; [vm_compute; reflexivity|].
    repeat split; vm_compute; reflexivity.
  - eexists. split; [vm_compute; reflexivity|].
    repeat split; vm_compute; reflexivity.
Qed.

(** ** Properties of the member pods *)

Lemma memberPods_filter ctrl snapshot :
  memberPods (label (d_Labels ctrl) nameLabel) snapshot =
    filter (sameName ctrl) snapshot.
Proof.
  unfold memberPods.
  set (step := fun result p => _).
  assert (forall acc, fold_left step snapshot acc =
                      (acc ++ filter (sameName ctrl) snapshot)%list) as Hgen.
  { induction snapshot as [|p snapshot IH]; intros acc; cbn [fold_left].
    - by rewrite filter_nil, app_nil_r.
    - rewrite IH, filter_cons. unfold step at 1.
      destruct (decide (label (d_Labels ctrl) nameLabel =
                        label (pod_Labels p) nameLabel)) as [Heq|Hne].
      + rewrite decide_True by done. by rewrite <- app_assoc.
      + rewrite decide_False; [done|]. unfold sameName. congruence. }
  exact (Hgen []).
Qed.

Lemma getControllerPods_run (self : Ops Kubetrbl) m ctrl snapshot :
  controller (user m) = Some ctrl ->
  pods (user m) = Some snapshot ->
  getControllerPods self m =
    (change self "validateContainerPort";; mret None)
      (mkMachine (FSM_State m) (stdout m)
         (set_podList (memberPods (label (d_Labels ctrl) nameLabel) snapshot)
                      (user m))).
Proof.
  intros Hctrl Hpods. unfold getControllerPods. run.
  rewrite Hctrl, Hpods. run. reflexivity.
Qed.

Lemma sameName_sharesName ctrl p : sameName ctrl p <-> sharesName ctrl p.
Proof.
  unfold sameName, sharesName, label, nameLabel.
  destruct (d_Labels ctrl !! "app.kubernetes.io/name"),
           (pod_Labels p !! "app.kubernetes.io/name"); cbn; naive_solver.
Qed.

(** C9: [getControllerPods] stores as the candidate list exactly the pods
    of the snapshot whose value for app.kubernetes.io/name equals the
    controller's, in snapshot order, and changes nothing else of the
    session; it returns no error and goes on to validateContainerPort, also
    when no pod matches and the list is empty. *)
Theorem getControllerPods_selects_same_name
    (self : Ops Kubetrbl) (m : Machine Kubetrbl) (ctrl : Deployment)
    (snapshot : list Pod)
    (Hctrl : controller (user m) = Some ctrl)
    (Hpods : pods (user m) = Some snapshot) :
  exists m1,
    getControllerPods self m =
      (change self "validateContainerPort";; mret None) m1 /\
    podList (user m1) = filter (sharesName ctrl) snapshot /\
    (Forall (fun p => ~ sharesName ctrl p) snapshot -> podList (user m1) = []) /\
    FSM_State m1 = FSM_State m /\
    stdout m1 = stdout m /\
    pods (user m1) = Some snapshot /\
    controller (user m1) = Some ctrl /\
    containerPort (user m1) = containerPort (user m) /\
    namespace (user m1) = namespace (user m) /\
    config (user m1) = config (user m) /\
    svc (user m1) = svc (user m) /\
    svcPort (user m1) = svcPort (user m) /\
    reader (user m1) = reader (user m) /\
    tunnels (user m1) = tunnels (user m).
Proof.
  assert (memberPods (label (d_Labels ctrl) nameLabel) snapshot =
          filter (sharesName ctrl) snapshot) as Hmembers.
  { rewrite memberPods_filter.
    apply list_filter_iff. intros p. apply sameName_sharesName. }
  eexists. split.
  { apply (getControllerPods_run self m ctrl snapshot Hctrl Hpods). }
  cbn. rewrite Hmembers. repeat split; try done.
  intros Hnone. clear Hpods Hmembers.
  induction Hnone as [|p l Hp _ IH]; [done|].
  by rewrite filter_cons_False.
Qed.

Lemma getControllerPods_selects_same_name_witness :
  exists m1,
    getControllerPods
      (ops (NewKubetrbl (cluster oneHttp (FromString "http") [web1; db1; web2] (status 200))) 3)
      (beforeMembers oneHttp [web1; db1; web2]) =
      (change (ops (NewKubetrbl (cluster oneHttp (FromString "http") [web1; db1; web2] (status 200))) 3)
              "validateContainerPort";; mret None) m1 /\
    podList (user m1) = [web1; web2] /\
    (Forall (fun p => ~ sharesName oneHttp p) [web1; db1; web2] ->
     podList (user m1) = []) /\
    FSM_State m1 = "getContainerPort" /\
    stdout m1 = [] /\
    pods (user m1) = Some [web1; db1; web2] /\
    controller (user m1) = Some oneHttp /\
    containerPort (user m1) = mkContainerPort "http" 8080 /\
    namespace (user m1) = "prod" /\
    config (user m1) = Some (mkConfig None "" false) /\
    svc (user m1) = zeroService /\
    svcPort (user m1) = mkServicePort "http" (FromString "http") /\
    reader (user m1) = [] /\
    tunnels (user m1) = [].
Proof.
  exact (getControllerPods_selects_same_name
           (ops (NewKubetrbl (cluster oneHttp (FromString "http") [web1; db1; web2] (status 200))) 3)
           (beforeMembers oneHttp [web1; db1; web2]) oneHttp [web1; db1; web2]
           eq_refl eq_refl).
Defined.

(** The step run to its end on the snapshot web-1, db-1, web-2 for the
    deployment web: the two web pods are stored, in snapshot order, no error
    is returned and the machine finishes. *)
Example getControllerPods_stores_web_pods :
  exists m',
    getControllerPods
      (ops (NewKubetrbl (cluster oneHttp (FromString "http") [web1; db1; web2] (status 200))) 3)
      (beforeMembers oneHttp [web1; db1; web2]) = Done None m' /\
    podList (user m') = [web1; web2] /\
    FSM_State m' = "finish".
Proof.
  eexists. split; [vm_compute; reflexivity|]. split; reflexivity.
Qed.




(** ** Properties of the validation step *)

Lemma log_tunnels_nil k : log_tunnels [] k = k.
Proof. destruct k. unfold log_tunnels. cbn. by rewrite app_nil_r. Qed.

Lemma log_tunnels_app es1 es2 k :
  log_tunnels es2 (log_tunnels es1 k) = log_tunnels (es1 ++ es2) k.
Proof. unfold log_tunnels. cbn. by rewrite app_assoc. Qed.

Lemma log_tunnel_one e k : log_tunnel e k = log_tunnels [e] k.
Proof. reflexivity. Qed.

(** The loop over a run of pods that all answer with a status code: each is
    announced, forwarded to, probed, judged and stopped, and the loop goes on
    with the pods that follow. *)
Lemma probePods_statuses env (probed : list (Pod * Z)) (rest : list Pod) m :
  Forall (fun pc => Tunnel env (namespace (user m)) (pod_Name pc.1)
                      (portMappingOf (user m)) = Ready (inr pc.2)) probed ->
  probePods env (probed.*1 ++ rest) m =
    probePods env rest
      (mkMachine (FSM_State m) (stdout m ++ reports probed)
         (log_tunnels (lifecycles (portMappingOf (user m)) probed.*1) (user m))).
Proof.
  revert m. induction probed as [|[pod code] probed IH]; intros m Hall.
  - cbn. rewrite app_nil_r, log_tunnels_nil. by destruct m.
  - apply Forall_cons in Hall as [Hpod Hall]. cbn [fst snd] in Hpod.
    cbn [fmap list_fmap app probePods]. run.
    fold (portMappingOf (user m)). rewrite Hpod. run.
    rewrite IH.
    + cbn. do 2 f_equal.
      * rewrite <- !app_assoc. reflexivity.
      * unfold portMappingOf, log_tunnels, log_tunnel. cbn.
        by rewrite <- !app_assoc.
    + exact Hall.
Qed.

Lemma probePods_request_error env pod rest err m :
  Tunnel env (namespace (user m)) (pod_Name pod) (portMappingOf (user m)) =
    Ready (inl err) ->
  probePods env (pod :: rest) m =
    Done (Some err)
      (mkMachine (FSM_State m) (stdout m ++ [checking pod])
         (log_tunnels [Started (pod_Name pod) (portMappingOf (user m));
                       Probed (pod_Name pod)] (user m))).
Proof.
  intros Hpod. cbn [probePods]. run.
  fold (portMappingOf (user m)). rewrite Hpod. run.
  unfold log_tunnels, log_tunnel. cbn. by rewrite <- app_assoc.
Qed.

(** C4, as the code has it: the candidates are probed in order; a status of
    400 or more is printed as that pod's result and the loop goes on; a
    request error ends the loop at that pod and is returned as the error of
    the step, the pods after it are not probed; finish is entered only when
    every candidate was probed without a request error. *)
Theorem validateContainerPort_stops_at_request_error
    (env : Env) (self : Ops Kubetrbl) (m : Machine Kubetrbl) (c : Config)
    (probed : list (Pod * Z))
    (Hconfig : config (user m) = Some c)
    (Hclient : RESTClientFor env (withDefaults c) = None)
    (Hprobed : Forall (fun pc => Tunnel env (namespace (user m)) (pod_Name pc.1)
                                   (portMappingOf (user m)) = Ready (inr pc.2))
                      probed) :
  (podList (user m) = probed.*1 ->
   validateContainerPort env self m =
     (change self "finish";; mret None)
       (mkMachine (FSM_State m) (stdout m ++ reports probed)
          (log_tunnels (lifecycles (portMappingOf (user m)) probed.*1)
             (set_config (Some (withDefaults c)) (user m))))) /\
  (forall pod rest err,
     podList (user m) = (probed.*1 ++ pod :: rest)%list ->
     Tunnel env (namespace (user m)) (pod_Name pod) (portMappingOf (user m)) =
       Ready (inl err) ->
     validateContainerPort env self m =
       Done (Some err)
         (mkMachine (FSM_State m) (stdout m ++ reports probed ++ [checking pod])
            (log_tunnels
               (lifecycles (portMappingOf (user m)) probed.*1 ++
                [Started (pod_Name pod) (portMappingOf (user m));
                 Probed (pod_Name pod)])
               (set_config (Some (withDefaults c)) (user m))))).
Proof.
  split.
  - intros Hlist. unfold validateContainerPort. run.
    rewrite Hconfig. run. rewrite Hclient. run. rewrite Hlist.
    rewrite <- (app_nil_r (probed.*1)) at 1.
    rewrite probePods_statuses by exact Hprobed.
    cbn [probePods]. run. reflexivity.
  - intros pod rest err Hlist Hpod. unfold validateContainerPort. run.
    rewrite Hconfig. run. rewrite Hclient. run. rewrite Hlist.
    rewrite probePods_statuses by exact Hprobed.
    rewrite probePods_request_error with (err := err) by exact Hpod.
    cbn. rewrite log_tunnels_app, <- app_assoc. reflexivity.
Qed.

Lemma validateContainerPort_stops_at_request_error_witness :
  validateContainerPort
      (cluster oneHttp (FromString "http") [web1; web2; db1] unavailable)
      (ops (NewKubetrbl (cluster oneHttp (FromString "http") [web1; web2; db1] unavailable)) 1)
      beforeValidate =
    (change (ops (NewKubetrbl (cluster oneHttp (FromString "http") [web1; web2; db1] unavailable)) 1)
            "finish";; mret None)
      (mkMachine "validateContainerPort"
         [checking web1; verdict 503; checking web2; verdict 200]
         (log_tunnels (lifecycles "8080:8080" [web1; web2])
            (set_config (Some (mkConfig (Some ("", "v1")) "/api" true))
                        (user beforeValidate)))).
Proof.
  apply (proj1 (validateContainerPort_stops_at_request_error
                  (cluster oneHttp (FromString "http") [web1; web2; db1] unavailable)
                  (ops (NewKubetrbl (cluster oneHttp (FromString "http") [web1; web2; db1] unavailable)) 1)
                  beforeValidate (mkConfig None "" false)
                  [(web1, 503%Z); (web2, 200%Z)]
                  eq_refl eq_refl
                  ltac:(repeat constructor))).
  reflexivity.
Defined.

(** C4, the claim as written fails: the probe of web-1 ends in a request
    error; [validateContainerPort] returns that error as the error of the
    step, web-2 is never probed and finish is not entered. *)
Lemma validateContainerPort_request_error_propagates :
  exists m',
    validateContainerPort
      (cluster oneHttp (FromString "http") [web1; web2; db1] refused)
      (ops (NewKubetrbl (cluster oneHttp (FromString "http") [web1; web2; db1] refused)) 1)
      beforeValidate = Done (Some "connection refused") m' /\
    podList (user m') = [web1; web2] /\
    stdout m' = [checking web1] /\
    bool_decide (checking web2 ∈ stdout m') = false /\
    FSM_State m' = "validateContainerPort".
Proof.
  eexists. split; [vm_compute; reflexivity|].
  repeat split; vm_compute; reflexivity.
Qed.

(** C3, on the code: when the probe of web-1 ends in a request error the
    step returns before the stop signal, so the tunnel to web-1 is started
    and probed but never stopped; when the probe answers 503 instead, every
    tunnel is stopped. *)
Theorem validateContainerPort_request_error_skips_stop :
  (exists m',
     validateContainerPort
       (cluster oneHttp (FromString "http") [web1; web2; db1] refused)
       (ops (NewKubetrbl (cluster oneHttp (FromString "http") [web1; web2; db1] refused)) 1)
       beforeValidate = Done (Some "connection refused") m' /\
     tunnels (user m') = [Started "web-1" "8080:8080"; Probed "web-1"] /\
     bool_decide (Stopped "web-1" ∈ tunnels (user m')) = false) /\
  (exists m',
     validateContainerPort
       (cluster oneHttp (FromString "http") [web1; web2; db1] unavailable)
       (ops (NewKubetrbl (cluster oneHttp (FromString "http") [web1; web2; db1] unavailable)) 1)
       beforeValidate = Done None m' /\
     FSM_State m' = "finish" /\
     tunnels (user m') =
       [Started "web-1" "8080:8080"; Probed "web-1"; Stopped "web-1";
        Started "web-2" "8080:8080"; Probed "web-2"; Stopped "web-2"]).
Proof.
  split.
  - eexists. split; [vm_compute; reflexivity|].
    split; vm_compute; reflexivity.
  - eexists. split; [vm_compute; reflexivity|].
    split; vm_compute; reflexivity.
Qed.

(** ** Further properties of the state machine *)

(** Registration and lookup: a registered name is known and reads back the
    state last registered under it, other names are not affected, and
    unregistering makes the name unknown again. *)
Theorem Register_lookup_round_trip
    {D : Type} (f : FSM D) (name other : string) (st st' : State D)
    (Hother : other <> name) :
  HasState (Register name st f) name = true /\
  dirGet (Register name st f) name = st /\
  dirGet (Register name st' (Register name st f)) name = st' /\
  HasState (Register name st f) other = HasState f other /\
  dirGet (Register name st f) other = dirGet f other /\
  HasState (Unregister name (Register name st f)) name = false /\
  HasState (Unregister name f) other = HasState f other.
Proof.
  unfold HasState, dirGet, Register, Unregister. cbn [StateDirectory].
  repeat split.
  - rewrite lookup_insert_eq. by apply bool_decide_eq_true_2.
  - by rewrite lookup_insert_eq.
  - by rewrite lookup_insert_eq.
  - by rewrite lookup_insert_ne.
  - by rewrite lookup_insert_ne.
  - rewrite lookup_delete_eq. apply bool_decide_eq_false_2. by intros [? ?].
  - by rewrite lookup_delete_ne.
Qed.

Lemma Register_lookup_round_trip_witness :
  HasState (Register "a" (mkState None None (Some exitFails)) noStates) "a" = true /\
  dirGet (Register "a" (mkState None None (Some exitFails)) noStates) "a" =
    mkState None None (Some exitFails) /\
  dirGet (Register "a" zeroState
            (Register "a" (mkState None None (Some exitFails)) noStates)) "a" =
    zeroState /\
  HasState (Register "a" (mkState None None (Some exitFails)) noStates) "b" =
    HasState noStates "b" /\
  dirGet (Register "a" (mkState None None (Some exitFails)) noStates) "b" =
    dirGet noStates "b" /\
  HasState (Unregister "a"
              (Register "a" (mkState None None (Some exitFails)) noStates)) "a" =
    false /\
  HasState (Unregister "a" noStates) "b" = HasState noStates "b".
Proof.
  apply (Register_lookup_round_trip noStates "a" "b"
           (mkState None None (Some exitFails)) zeroState).
  discriminate.
Defined.

(** With the handler of [NewFSM], a failing [Enter] does not undo the
    transition: the failure is printed and [Change] returns with the machine
    as the callback left it, the target being the current state when the
    callback did not change it. *)
Theorem Change_enter_failure_is_printed
    {D : Type} (f : FSM D) (fuel : nat) (name : string) (m m1 : Machine D)
    (target : State D) (onEnter : Callback D) (e : error)
    (Hhandler : ErrorHandler f = ErrorHandler NewFSM)
    (Hexit : active f Exit m = None)
    (Hregistered : StateDirectory f !! name = Some target)
    (Hname : name <> "")
    (Henter : Enter target = Some onEnter)
    (Hfails : onEnter (ops f fuel) (mkMachine name (stdout m) (user m)) =
              Done (Some e) m1) :
  Change f (S fuel) name m =
    Done tt (mkMachine (FSM_State m1) (stdout m1 ++ [Line ("Error: " +:+ e)])
               (user m1)).
Proof.
  rewrite (Change_enters f fuel name m target onEnter) by done.
  unfold invoke, bind. rewrite Hfails, Hhandler. reflexivity.
Qed.

Lemma Change_enter_failure_is_printed_witness :
  Change (Register "x" (mkState (Some exitFails) None None) NewFSM) 1 "x"
         (mkMachine "" [] []) =
    Done tt (mkMachine "x" [Line "Error: boom"] ["a.Exit"]).
Proof.
  apply (Change_enter_failure_is_printed
           (Register "x" (mkState (Some exitFails) None None) NewFSM) 0 "x"
           (mkMachine "" [] []) (mkMachine "x" [] ["a.Exit"])
           (mkState (Some exitFails) None None) exitFails "boom").
  - reflexivity.
  - reflexivity.
  - vm_compute; reflexivity.
  - discriminate.
  - reflexivity.
  - reflexivity.
Defined.

(** ** Further properties of the program *)

Lemma NewKubetrbl_active_Exit env m : active (NewKubetrbl env) Exit m = None.
Proof.
  unfold active. destruct (decide (FSM_State m = "")); [done|].
  apply NewKubetrbl_no_Exit.
Qed.

Lemma NewKubetrbl_enters env fuel name cb upd m :
  StateDirectory (NewKubetrbl env) !! name = Some (mkState (Some cb) upd None) ->
  name <> "" ->
  Change (NewKubetrbl env) (S fuel) name m =
    invoke (NewKubetrbl env) (ops (NewKubetrbl env) fuel) cb (entering name m).
Proof.
  intros Hreg Hname.
  by rewrite (Change_enters _ fuel name m _ cb (NewKubetrbl_active_Exit env m) Hreg).
Qed.

Lemma NewKubetrbl_handler env : ErrorHandler (NewKubetrbl env) = reenter.
Proof. reflexivity. Qed.

(** Only getKubeConfig has an [Update] callback. *)
Lemma NewKubetrbl_Update env name :
  name <> "getKubeConfig" -> Update (dirGet (NewKubetrbl env) name) = None.
Proof.
  intros Hname.
  assert (map_Forall (fun k st => k <> "getKubeConfig" -> Update st = None)
            (StateDirectory (NewKubetrbl env))) as Hall.
  { unfold NewKubetrbl, Register. cbn.
    repeat (apply map_Forall_insert_2; [by intros ?|]).
    apply map_Forall_empty. }
  unfold dirGet. destruct (StateDirectory (NewKubetrbl env) !! name) eqn:Hl.
  - exact (Hall _ _ Hl Hname).
  - reflexivity.
Qed.

(** [Update] in any state of the program other than getKubeConfig runs
    nothing: it prints the warning about a missing active state, although a
    state is active, and leaves the machine as it is. *)
Theorem Update_outside_getKubeConfig_only_warns
    (env : Env) (fuel : nat) (m : Machine Kubetrbl)
    (Hstate : FSM_State m <> "getKubeConfig") :
  FSM_Update (NewKubetrbl env) (S fuel) m =
    Done tt (says [Line "Update() called on FSM without active state."] m).
Proof.
  rewrite Update_unfold. unfold Update_body, active.
  destruct (decide (FSM_State m = "")); [done|].
  by rewrite NewKubetrbl_Update.
Qed.

Lemma Update_outside_getKubeConfig_only_warns_witness :
  FSM_Update (NewKubetrbl noConfig) 1 (beforePort [] []) =
    Done tt (says [Line "Update() called on FSM without active state."]
                  (beforePort [] [])).
Proof.
  apply (Update_outside_getKubeConfig_only_warns noConfig 0 (beforePort [] [])).
  discriminate.
Defined.

(** Once the input is exhausted, entering getKubeConfig never returns: the
    read fails, the handler enters the state again, and so on at every depth,
    so every amount of fuel runs out.  A run started on empty input is such a
    run. *)
Theorem getKubeConfig_exhausted_input_never_returns
    (env : Env) (fuel : nat) (m : Machine Kubetrbl)
    (Hempty : reader (user m) = []) :
  Change (NewKubetrbl env) fuel "getKubeConfig" m = OutOfFuel /\
  Start env fuel (fresh []) = OutOfFuel.
Proof.
  assert (forall n m, reader (user m) = [] ->
            change (ops (NewKubetrbl env) n) "getKubeConfig" m = OutOfFuel) as Hloop.
  { clear. intros n. induction n as [|n IH]; intros m Hempty; [done|].
    change (change (ops (NewKubetrbl env) (S n)) "getKubeConfig" m)
      with (Change (NewKubetrbl env) (S n) "getKubeConfig" m).
    rewrite (NewKubetrbl_enters env n "getKubeConfig" (getKubeConfig)
               (Some (createK8sClient env)) m) by done.
    unfold invoke, getKubeConfig, readString, entering. run.
    rewrite Hempty. run. rewrite NewKubetrbl_handler. unfold reenter. run.
    rewrite IH by done. reflexivity. }
  split; [by apply Hloop|].
  unfold Start. destruct fuel as [|n]; [done|].
  rewrite (NewKubetrbl_enters env n "welcome" welcome None) by done.
  unfold invoke, welcome, entering. run. rewrite Hloop by done. reflexivity.
Qed.

Lemma getKubeConfig_exhausted_input_never_returns_witness :
  Change (NewKubetrbl noConfig) 5 "getKubeConfig" (fresh []) = OutOfFuel /\
  Start noConfig 5 (fresh []) = OutOfFuel.
Proof.
  apply (getKubeConfig_exhausted_input_never_returns noConfig 5 (fresh [])).
  reflexivity.
Defined.

Ltac through :=
  unfold Change, errorBanner;
  match goal with
  | |- context [change ?o ?n ?m] => destruct (change o n m) as [[] ?|?|?|]
  end; reflexivity.

Lemma NewKubetrbl_active_Update env m :
  FSM_State m = "getKubeConfig" ->
  active (NewKubetrbl env) Update m = Some (createK8sClient env).
Proof. intros H. unfold active. rewrite H. reflexivity. Qed.

(** A configuration file that cannot be loaded sends the operator back to
    the prompt: the failure of [createK8sClient] under [Update] is printed by
    the handler, which enters getKubeConfig again with the next line of
    input; the path typed stays in [cfg] and nothing else changes. *)
Theorem getKubeConfig_unloadable_config_prompts_again
    (env : Env) (fuel : nat) (m : Machine Kubetrbl) (line : string)
    (rest : list string) (e : error)
    (Hinput : reader (user m) = line :: rest)
    (Hload : BuildConfigFromFlags env (TrimSpace line) = inl e) :
  Change (NewKubetrbl env) (S (S (S fuel))) "getKubeConfig" m =
    Change (NewKubetrbl env) (S fuel) "getKubeConfig"
      (mkMachine "getKubeConfig"
         (stdout m ++
          [Line "We need to start by connecting to a Kubernetes cluster.";
           Line "Enter the location of your KUBECONFIG file: ";
           errorBanner; Line e])
         (set_cfg (TrimSpace line) (set_reader rest (user m)))).
Proof.
  rewrite (NewKubetrbl_enters env _ "getKubeConfig" (getKubeConfig)
             (Some (createK8sClient env)) m) by done.
  unfold invoke, getKubeConfig, readString, entering. run.
  rewrite Hinput. run.
  change (update (ops (NewKubetrbl env) (S (S fuel))))
    with (Update_body (NewKubetrbl env) (ops (NewKubetrbl env) (S fuel))).
  unfold Update_body.
  rewrite NewKubetrbl_active_Update by reflexivity.
  unfold invoke, createK8sClient. run. cbn [cfg set_cfg]. rewrite Hload. run.
  rewrite NewKubetrbl_handler. unfold reenter. run.
  rewrite <- !app_assoc. cbn [app].
  through.
Qed.

Lemma getKubeConfig_unloadable_config_prompts_again_witness :
  Change (NewKubetrbl noConfig) 3 "getKubeConfig" (fresh [" /cfg "; "x"]) =
    Change (NewKubetrbl noConfig) 1 "getKubeConfig"
      (mkMachine "getKubeConfig"
         [Line "We need to start by connecting to a Kubernetes cluster.";
          Line "Enter the location of your KUBECONFIG file: ";
          errorBanner; Line "no such file"]
         (set_cfg "/cfg" (set_reader ["x"] (newK [" /cfg "; "x"])))).
Proof.
  apply (getKubeConfig_unloadable_config_prompts_again noConfig 0
           (fresh [" /cfg "; "x"]) " /cfg " ["x"] "no such file").
  - reflexivity.
  - reflexivity.
Defined.

Lemma NewKubetrbl_countPods env :
  StateDirectory (NewKubetrbl env) !! "countPods" = Some (onEnter (countPods env)).
Proof. reflexivity. Qed.

(** A valid answer selects the namespace at that position of the list as
    displayed, consumes one line of input and goes on to countPods. *)
Theorem getNamespace_valid_index_selects
    (env : Env) (fuel : nat) (m : Machine Kubetrbl) (nms : list string)
    (line : string) (rest : list string) (answer : Z) (nm : string)
    (Hclient : k8sClient (user m) = true)
    (Hlist : ListNamespaces env = inr nms)
    (Hinput : reader (user m) = line :: rest)
    (Hparsed : Atoi (TrimSpace line) = inr answer)
    (Hpos : (0 <= answer)%Z)
    (Hat : nms !! Z.to_nat answer = Some nm) :
  Change (NewKubetrbl env) (S (S fuel)) "getNamespace" m =
    Change (NewKubetrbl env) (S fuel) "countPods"
      (mkMachine "getNamespace"
         (stdout m ++ Line "Available namespaces:" :: listing 0 nms ++
                      [Text "Kubernetes namespace? "])%list
         (set_namespace nm (set_reader rest (user m)))).
Proof.
  rewrite (NewKubetrbl_enters env _ "getNamespace" (getNamespace env) None m)
    by done.
  unfold invoke, getNamespace, entering. run.
  rewrite Hclient, Hlist. run.
  rewrite printIndexed_run. unfold readInt, readString. run.
  rewrite Hinput. run. rewrite Hparsed. run.
  unfold index. rewrite decide_False by lia. rewrite Hat. run.
  rewrite <- !app_assoc. cbn [app].
  through.
Qed.

Lemma getNamespace_valid_index_selects_witness :
  Change (NewKubetrbl (cluster oneHttp (FromString "http") [web1] (status 200)))
         2 "getNamespace" (beforeNamespace [" 2"; "0"]) =
    Change (NewKubetrbl (cluster oneHttp (FromString "http") [web1] (status 200)))
           1 "countPods"
      (mkMachine "getNamespace"
         [Line "Available namespaces:"; Line "0) default"; Line "1) kube-system";
          Line "2) prod"; Text "Kubernetes namespace? "]
         (set_namespace "prod" (set_reader ["0"] (user (beforeNamespace [" 2"; "0"]))))).
Proof.
  apply (getNamespace_valid_index_selects
           (cluster oneHttp (FromString "http") [web1] (status 200)) 0
           (beforeNamespace [" 2"; "0"]) ["default"; "kube-system"; "prod"]
           " 2" ["0"] 2 "prod").
  - reflexivity.
  - reflexivity.
  - reflexivity.
  - vm_compute; reflexivity.
  - lia.
  - reflexivity.
Defined.

(** An answer that is not a number is a recoverable error: the handler
    prints the text of the conversion error, which quotes the answer as
    [strconv.Quote] does, and enters getNamespace again, which lists the
    namespaces anew and reads the next line; the namespace is not
    touched. *)
Theorem getNamespace_unparsable_answer_asks_again
    (env : Env) (fuel : nat) (m : Machine Kubetrbl) (nms : list string)
    (line : string) (rest : list string) (e : NumError)
    (Hclient : k8sClient (user m) = true)
    (Hlist : ListNamespaces env = inr nms)
    (Hinput : reader (user m) = line :: rest)
    (Hparsed : Atoi (TrimSpace line) = inl e) :
  Change (NewKubetrbl env) (S (S fuel)) "getNamespace" m =
    Change (NewKubetrbl env) (S fuel) "getNamespace"
      (mkMachine "getNamespace"
         (stdout m ++ Line "Available namespaces:" :: listing 0 nms ++
                      [Text "Kubernetes namespace? "; errorBanner;
                       Line ("strconv.Atoi: parsing " +:+
                             Quote (Quoting env) (Num e) +:+ ": " +:+
                             Err e)])%list
         (set_reader rest (user m))).
Proof.
  rewrite (NewKubetrbl_enters env _ "getNamespace" (getNamespace env) None m)
    by done.
  unfold invoke, getNamespace, entering. run.
  rewrite Hclient, Hlist. run.
  rewrite printIndexed_run. unfold readInt, readString. run.
  rewrite Hinput. run. rewrite Hparsed. run.
  rewrite NewKubetrbl_handler. unfold reenter. run.
  rewrite <- !app_assoc. cbn [app errorText].
  reflexivity.
Qed.

Lemma getNamespace_unparsable_answer_asks_again_witness :
  Change (NewKubetrbl (cluster oneHttp (FromString "http") [web1] (status 200)))
         2 "getNamespace" (beforeNamespace ["prod"; "2"]) =
    Change (NewKubetrbl (cluster oneHttp (FromString "http") [web1] (status 200)))
           1 "getNamespace"
      (mkMachine "getNamespace"
         [Line "Available namespaces:"; Line "0) default"; Line "1) kube-system";
          Line "2) prod"; Text "Kubernetes namespace? "; errorBanner;
          Line ("strconv.Atoi: parsing " +:+ dquote +:+ "prod" +:+ dquote +:+
                ": invalid syntax")]
         (set_reader ["2"] (user (beforeNamespace ["prod"; "2"])))).
Proof.
  exact (getNamespace_unparsable_answer_asks_again
           (cluster oneHttp (FromString "http") [web1] (status 200)) 0
           (beforeNamespace ["prod"; "2"]) ["default"; "kube-system"; "prod"]
           "prod" ["2"] (mkNumError "prod" ErrSyntax)
           eq_refl eq_refl eq_refl eq_refl).
Defined.

(** ** Properties of the health checks *)

Lemma find_all_false {A} (P : A -> bool) (l : list A) :
  Forall (fun x => P x = false) l -> List.find P l = None.
Proof.
  induction 1 as [|x l Hx _ IH]; [done|]. cbn. by rewrite Hx.
Qed.

Lemma find_first_true {A} (P : A -> bool) (l1 l2 : list A) (x : A) :
  Forall (fun y => P y = false) l1 -> P x = true ->
  List.find P (l1 ++ x :: l2) = Some x.
Proof.
  induction 1 as [|y l1 Hy _ IH]; intros Hx; cbn.
  - by rewrite Hx.
  - rewrite Hy. by apply IH.
Qed.

Lemma NewKubetrbl_checks env :
  StateDirectory (NewKubetrbl env) !! "checkPendingPods" =
    Some (onEnter checkPendingPods) /\
  StateDirectory (NewKubetrbl env) !! "checkRunningPods" =
    Some (onEnter checkRunningPods) /\
  StateDirectory (NewKubetrbl env) !! "checkReadyPods" =
    Some (onEnter checkReadyPods).
Proof. repeat split. Qed.

(** A snapshot in which every pod is running and has no Ready condition
    other than True passes the three checks in a row: each prints its line,
    the snapshot and the rest of the session stay as they are, and the
    machine goes on to getServiceName.  The empty snapshot is such a
    snapshot. *)
Theorem healthy_snapshot_passes_all_checks
    (env : Env) (fuel : nat) (m : Machine Kubetrbl) (items : list Pod)
    (Hpods : pods (user m) = Some items)
    (Hhealthy : Forall healthy items) :
  Change (NewKubetrbl env) (S (S (S (S fuel)))) "checkPendingPods" m =
    Change (NewKubetrbl env) (S fuel) "getServiceName"
      (mkMachine "checkReadyPods"
         (stdout m ++ [Line "✓ No pods are pending.";
                       Line "✓ All pods are running.";
                       Line "✓ All pods are ready."])
         (user m)).
Proof.
  destruct (NewKubetrbl_checks env) as (Hp & Hr & Hy).
  assert (List.find (fun pod => bool_decide (pod_Phase pod = "Pending")) items = None)
    as Hnopending.
  { apply find_all_false. eapply Forall_impl; [exact Hhealthy|].
    intros p [Hrun _]. cbn. rewrite Hrun. reflexivity. }
  assert (List.find (fun pod => bool_decide (pod_Phase pod <> "Running")) items = None)
    as Hallrun.
  { apply find_all_false. eapply Forall_impl; [exact Hhealthy|].
    intros p [Hrun _]. cbn. rewrite Hrun. reflexivity. }
  assert (List.find (fun pod => existsb notReady (pod_Conditions pod)) items = None)
    as Hallready.
  { apply find_all_false. eapply Forall_impl; [exact Hhealthy|].
    by intros p [_ Hcond]. }
  rewrite (NewKubetrbl_enters env _ "checkPendingPods" checkPendingPods None m Hp)
    by done.
  unfold invoke, checkPendingPods, entering. run.
  rewrite Hpods, Hnopending. run.
  change (change (ops (NewKubetrbl env) (S (S (S fuel)))) "checkRunningPods")
    with (Change (NewKubetrbl env) (S (S (S fuel))) "checkRunningPods").
  rewrite (NewKubetrbl_enters env _ "checkRunningPods" checkRunningPods None _ Hr)
    by done.
  unfold invoke, checkRunningPods, entering. run.
  rewrite Hpods, Hallrun. run.
  change (change (ops (NewKubetrbl env) (S (S fuel))) "checkReadyPods")
    with (Change (NewKubetrbl env) (S (S fuel)) "checkReadyPods").
  rewrite (NewKubetrbl_enters env _ "checkReadyPods" checkReadyPods None _ Hy)
    by done.
  unfold invoke, checkReadyPods, entering. run.
  rewrite Hpods, Hallready. run.
  rewrite <- !app_assoc. cbn [app].
  through.
Qed.

Lemma healthy_snapshot_passes_all_checks_witness :
  Change (NewKubetrbl noConfig) 4 "checkPendingPods"
         (withSnapshot "countPods" [web1; db1]) =
    Change (NewKubetrbl noConfig) 1 "getServiceName"
      (mkMachine "checkReadyPods"
         [Line "✓ No pods are pending."; Line "✓ All pods are running.";
          Line "✓ All pods are ready."]
         (user (withSnapshot "countPods" [web1; db1]))).
Proof.
  apply (healthy_snapshot_passes_all_checks noConfig 0
           (withSnapshot "countPods" [web1; db1]) [web1; db1]).
  - reflexivity.
  - repeat constructor.
Defined.

(** A pending pod stops the run at checkPendingPods: the first pending pod
    of the snapshot is named, nothing else is printed, no further state is
    entered and the session is left as it is. *)
Theorem checkPendingPods_stops_at_first_pending
    (env : Env) (fuel : nat) (m : Machine Kubetrbl)
    (before after : list Pod) (pod : Pod)
    (Hpods : pods (user m) = Some (before ++ pod :: after)%list)
    (Hbefore : Forall (fun p => pod_Phase p <> "Pending") before)
    (Hpending : pod_Phase pod = "Pending") :
  Change (NewKubetrbl env) (S fuel) "checkPendingPods" m =
    Done tt (mkMachine "checkPendingPods"
               (stdout m ++ [Line ("✗ Pending - " +:+ pod_Name pod)])
               (user m)).
Proof.
  destruct (NewKubetrbl_checks env) as (Hp & _ & _).
  rewrite (NewKubetrbl_enters env _ "checkPendingPods" checkPendingPods None m Hp)
    by done.
  unfold invoke, checkPendingPods, entering. run. rewrite Hpods.
  rewrite (find_first_true _ before after pod).
  - run. reflexivity.
  - eapply Forall_impl; [exact Hbefore|]. intros p Hne. cbn.
    by apply bool_decide_eq_false_2.
  - by apply bool_decide_eq_true_2.
Qed.

Lemma checkPendingPods_stops_at_first_pending_witness :
  Change (NewKubetrbl noConfig) 1 "checkPendingPods"
         (withSnapshot "countPods" [web1; job1; db1]) =
    Done tt (mkMachine "checkPendingPods" [Line "✗ Pending - job-1"]
               (user (withSnapshot "countPods" [web1; job1; db1]))).
Proof.
  apply (checkPendingPods_stops_at_first_pending noConfig 0
           (withSnapshot "countPods" [web1; job1; db1]) [web1] [db1] job1).
  - reflexivity.
  - repeat constructor; discriminate.
  - reflexivity.
Defined.

(** A pod in any phase other than Running stops the run at
    checkRunningPods in the same way. *)
Theorem checkRunningPods_stops_at_first_not_running
    (env : Env) (fuel : nat) (m : Machine Kubetrbl)
    (before after : list Pod) (pod : Pod)
    (Hpods : pods (user m) = Some (before ++ pod :: after)%list)
    (Hbefore : Forall (fun p => pod_Phase p = "Running") before)
    (Hphase : pod_Phase pod <> "Running") :
  Change (NewKubetrbl env) (S fuel) "checkRunningPods" m =
    Done tt (mkMachine "checkRunningPods"
               (stdout m ++ [Line ("### Not running - " +:+ pod_Name pod)])
               (user m)).
Proof.
  destruct (NewKubetrbl_checks env) as (_ & Hr & _).
  rewrite (NewKubetrbl_enters env _ "checkRunningPods" checkRunningPods None m Hr)
    by done.
  unfold invoke, checkRunningPods, entering. run. rewrite Hpods.
  rewrite (find_first_true _ before after pod).
  - run. reflexivity.
  - eapply Forall_impl; [exact Hbefore|]. intros p Hrun. cbn.
    apply bool_decide_eq_false_2. by intros Hne.
  - by apply bool_decide_eq_true_2.
Qed.

Lemma checkRunningPods_stops_at_first_not_running_witness :
  Change (NewKubetrbl noConfig) 1 "checkRunningPods"
         (withSnapshot "checkPendingPods" [web1; job1; db1]) =
    Done tt (mkMachine "checkRunningPods" [Line "### Not running - job-1"]
               (user (withSnapshot "checkPendingPods" [web1; job1; db1]))).
Proof.
  apply (checkRunningPods_stops_at_first_not_running noConfig 0
           (withSnapshot "checkPendingPods" [web1; job1; db1]) [web1] [db1] job1).
  - reflexivity.
  - repeat constructor.
  - discriminate.
Defined.

(** A pod with a Ready condition whose status is not True stops the run at
    checkReadyPods; pods without any Ready condition do not. *)
Theorem checkReadyPods_stops_at_first_not_ready
    (env : Env) (fuel : nat) (m : Machine Kubetrbl)
    (before after : list Pod) (pod : Pod) (c : PodCondition)
    (Hpods : pods (user m) = Some (before ++ pod :: after)%list)
    (Hbefore : Forall (fun p => Forall (fun c => pc_Type c = "Ready" ->
                                                 pc_Status c = "True")
                                       (pod_Conditions p)) before)
    (Hcond : c ∈ pod_Conditions pod)
    (Htype : pc_Type c = "Ready")
    (Hstatus : pc_Status c <> "True") :
  Change (NewKubetrbl env) (S fuel) "checkReadyPods" m =
    Done tt (mkMachine "checkReadyPods"
               (stdout m ++ [Line ("### Not ready - " +:+ pod_Name pod)])
               (user m)).
Proof.
  destruct (NewKubetrbl_checks env) as (_ & _ & Hy).
  rewrite (NewKubetrbl_enters env _ "checkReadyPods" checkReadyPods None m Hy)
    by done.
  unfold invoke, checkReadyPods, entering. run. rewrite Hpods.
  rewrite (find_first_true _ before after pod).
  - run. reflexivity.
  - eapply Forall_impl; [exact Hbefore|]. intros p Hall. cbn.
    apply not_true_is_false. intros Hex.
    apply existsb_exists in Hex as (c' & Hin & Hnr).
    rewrite Forall_forall in Hall. apply list_elem_of_In in Hin.
    unfold notReady in Hnr. apply andb_prop in Hnr as [Ht Hs].
    apply bool_decide_eq_true_1 in Ht. apply bool_decide_eq_true_1 in Hs.
    by apply Hs, Hall.
  - apply existsb_exists. exists c. split; [by apply list_elem_of_In|].
    unfold notReady. by rewrite !bool_decide_eq_true_2.
Qed.

Lemma checkReadyPods_stops_at_first_not_ready_witness :
  Change (NewKubetrbl noConfig) 1 "checkReadyPods"
         (withSnapshot "checkRunningPods" [web1; bare; slow1; db1]) =
    Done tt (mkMachine "checkReadyPods" [Line "### Not ready - slow-1"]
               (user (withSnapshot "checkRunningPods" [web1; bare; slow1; db1]))).
Proof.
  apply (checkReadyPods_stops_at_first_not_ready noConfig 0
           (withSnapshot "checkRunningPods" [web1; bare; slow1; db1])
           [web1; bare] [db1] slow1 (mkPodCondition "Ready" "False")).
  - reflexivity.
  - repeat constructor.
  - repeat constructor.
  - reflexivity.
  - discriminate.
Defined.

(** ** Further properties of the selection and resolution steps *)

Lemma NewKubetrbl_getServicePort env :
  StateDirectory (NewKubetrbl env) !! "getServicePort" =
    Some (onEnter (getServicePort env)).
Proof. reflexivity. Qed.

(** The port selection has the bounds of the slice access and nothing
    else: a number that is no position of the service's port list ends the
    run in the index-out-of-range panic of the run time, so a service
    without ports cannot be passed with any number. *)
Theorem getServicePort_index_out_of_range_panics
    (env : Env) (fuel : nat) (m : Machine Kubetrbl)
    (line : string) (rest : list string) (answer : Z)
    (Hinput : reader (user m) = line :: rest)
    (Hparsed : Atoi (TrimSpace line) = inr answer)
    (Hrange : ~ (0 <= answer < Z.of_nat (length (svc_Ports (svc (user m)))))%Z) :
  Change (NewKubetrbl env) (S fuel) "getServicePort" m =
    Panicked (indexOutOfRange answer (length (svc_Ports (svc (user m)))))
      (mkMachine "getServicePort"
         (stdout m ++ Line "Available ports: " ::
            listing 0 (sp_Name <$> svc_Ports (svc (user m))) ++
            [Text "Which port? "])%list
         (set_reader rest (user m))).
Proof.
  rewrite (NewKubetrbl_enters env _ "getServicePort" (getServicePort env) None m)
    by done.
  unfold invoke, getServicePort, entering. run.
  rewrite printIndexed_run. unfold readInt, readString. run.
  rewrite Hinput. run. rewrite Hparsed. run.
  rewrite index_panics by done. rewrite <- !app_assoc. reflexivity.
Qed.

Lemma getServicePort_index_out_of_range_panics_witness :
  Change (NewKubetrbl noConfig) 1 "getServicePort" (beforePort [] ["0"]) =
    Panicked "runtime error: index out of range [0] with length 0"
      (mkMachine "getServicePort"
         [Line "Available ports: "; Text "Which port? "]
         (set_reader [] (user (beforePort [] ["0"])))).
Proof.
  apply (getServicePort_index_out_of_range_panics noConfig 0
           (beforePort [] ["0"]) "0" [] 0).
  - reflexivity.
  - vm_compute; reflexivity.
  - cbn; lia.
Defined.

Lemma NewKubetrbl_getControllerWorkload env :
  StateDirectory (NewKubetrbl env) !! "getControllerWorkload" =
    Some (onEnter (getControllerWorkload env)).
Proof. reflexivity. Qed.

(** The backing deployment is fetched by name, the name being the
    service's value for the name label (the empty name when the selector has
    no such label).  When the fetch fails the handler enters the state again;
    no input is read in between, so with the cluster unchanged the fetch
    fails again and the run never returns. *)
Theorem getControllerWorkload_failed_fetch_never_returns
    (env : Env) (fuel : nat) (m : Machine Kubetrbl) (e : error)
    (Hclient : k8sClient (user m) = true)
    (Hfetch : GetDeployment env (namespace (user m))
                (label (svc_Selector (svc (user m))) nameLabel) = inl e) :
  Change (NewKubetrbl env) fuel "getControllerWorkload" m = OutOfFuel.
Proof.
  unfold Change. remember (user m) as k eqn:Hk. revert m Hk.
  induction fuel as [|n IH]; intros m Hk; [done|].
  change (change (ops (NewKubetrbl env) (S n)) "getControllerWorkload" m)
    with (Change (NewKubetrbl env) (S n) "getControllerWorkload" m).
  rewrite (NewKubetrbl_enters env n "getControllerWorkload"
             (getControllerWorkload env) None m) by done.
  unfold invoke, getControllerWorkload, entering. run.
  rewrite <- Hk, Hclient, Hfetch. run.
  rewrite NewKubetrbl_handler. unfold reenter. run.
  by rewrite IH.
Qed.

Lemma getControllerWorkload_failed_fetch_never_returns_witness :
  Change (NewKubetrbl noConfig) 7 "getControllerWorkload" (beforePort [] []) =
    OutOfFuel.
Proof.
  apply (getControllerWorkload_failed_fetch_never_returns noConfig 7
           (beforePort [] []) "not found").
  - reflexivity.
  - reflexivity.
Defined.

(** When the fetch succeeds the deployment becomes the controller of the
    session and the machine goes on to getContainerPort. *)
Theorem getControllerWorkload_found_sets_controller
    (env : Env) (fuel : nat) (m : Machine Kubetrbl) (d : Deployment)
    (Hclient : k8sClient (user m) = true)
    (Hfetch : GetDeployment env (namespace (user m))
                (label (svc_Selector (svc (user m))) nameLabel) = inr d) :
  Change (NewKubetrbl env) (S (S fuel)) "getControllerWorkload" m =
    Change (NewKubetrbl env) (S fuel) "getContainerPort"
      (mkMachine "getControllerWorkload"
         (stdout m ++ [Line ("✓ Found backing Deployment - " +:+ d_Name d)])
         (set_controller (Some d) (user m))).
Proof.
  rewrite (NewKubetrbl_enters env _ "getControllerWorkload"
             (getControllerWorkload env) None m) by done.
  unfold invoke, getControllerWorkload, entering. run.
  rewrite Hclient, Hfetch. run.
  through.
Qed.

Lemma getControllerWorkload_found_sets_controller_witness :
  Change (NewKubetrbl (cluster oneHttp (FromString "http") [] (status 200)))
         2 "getControllerWorkload" (beforePort [] []) =
    Change (NewKubetrbl (cluster oneHttp (FromString "http") [] (status 200)))
           1 "getContainerPort"
      (mkMachine "getControllerWorkload"
         [Line "✓ Found backing Deployment - web"]
         (set_controller (Some oneHttp) (user (beforePort [] [])))).
Proof.
  apply (getControllerWorkload_found_sets_controller
           (cluster oneHttp (FromString "http") [] (status 200)) 0
           (beforePort [] []) oneHttp).
  - reflexivity.
  - reflexivity.
Defined.

Lemma scanPorts_result tgt ports found :
  scanPorts tgt ports found = found \/
  (scanPorts tgt ports found ∈ ports /\
   cp_Name (scanPorts tgt ports found) = tgt).
Proof.
  induction ports as [|p ports IH]; [by left|]. cbn.
  destruct (decide (tgt = cp_Name p)) as [Heq|Hne].
  - right. split; [by left|done].
  - destruct IH as [IH|[Hin Hname]]; [by left|].
    right. split; [by right|done].
Qed.

Lemma scanPorts_has_match tgt ports found p :
  p ∈ ports -> cp_Name p = tgt ->
  scanPorts tgt ports found ∈ ports /\
  cp_Name (scanPorts tgt ports found) = tgt.
Proof.
  intros Hin Hname. induction ports as [|q ports IH].
  - by apply elem_of_nil in Hin.
  - cbn. destruct (decide (tgt = cp_Name q)) as [Heq|Hne].
    + split; [by left|done].
    + apply elem_of_cons in Hin as [->|Hin]; [congruence|].
      destruct (IH Hin) as [Hr Hn]. split; [by right|done].
Qed.

Lemma scanPorts_first tgt before p after found :
  Forall (fun q => cp_Name q <> tgt) before -> cp_Name p = tgt ->
  scanPorts tgt (before ++ p :: after) found = p.
Proof.
  intros Hbefore Hp. induction Hbefore as [|q before Hq _ IH]; cbn.
  - by rewrite decide_True.
  - by rewrite decide_False by congruence.
Qed.

Lemma scanContainers_cons tgt cnt containers found :
  scanContainers tgt (cnt :: containers) found =
    scanContainers tgt containers (scanPorts tgt (c_Ports cnt) found).
Proof. reflexivity. Qed.

(** What the two loops of [getContainerPort] can end on: the port held
    before, or a port of one of the containers whose name is the target; and
    when some container has a port with that name, always the latter. *)
Theorem scanContainers_result_is_a_match
    (tgt : string) (containers : list Container) (found : ContainerPort) :
  (scanContainers tgt containers found = found \/
   (cp_Name (scanContainers tgt containers found) = tgt /\
    exists cnt, cnt ∈ containers /\
                scanContainers tgt containers found ∈ c_Ports cnt)) /\
  ((exists cnt p, cnt ∈ containers /\ p ∈ c_Ports cnt /\ cp_Name p = tgt) ->
   cp_Name (scanContainers tgt containers found) = tgt /\
   exists cnt, cnt ∈ containers /\
               scanContainers tgt containers found ∈ c_Ports cnt).
Proof.
  revert found. induction containers as [|c cs IH]; intros found.
  - split; [by left|]. intros (cnt & p & Hin & _). by apply elem_of_nil in Hin.
  - rewrite scanContainers_cons.
    destruct (IH (scanPorts tgt (c_Ports c) found)) as [Hres Hmatch].
    assert (forall r, (cp_Name r = tgt /\ exists cnt, cnt ∈ cs /\ r ∈ c_Ports cnt) ->
                      cp_Name r = tgt /\ exists cnt, cnt ∈ c :: cs /\ r ∈ c_Ports cnt)
      as Hlift.
    { intros r (Hn & cnt & Hin & Hr). split; [done|].
      exists cnt. split; [by right|done]. }
    split.
    + destruct Hres as [Heq|Hin]; [|right; by apply Hlift].
      rewrite Heq.
      destruct (scanPorts_result tgt (c_Ports c) found) as [Hsame|[Hin Hn]];
        [by left|].
      right. split; [done|]. exists c. split; [by left|done].
    + intros (cnt & p & Hcnt & Hp & Hname).
      apply elem_of_cons in Hcnt as [->|Hcnt].
      * destruct Hres as [Heq|Hin]; [|by apply Hlift].
        rewrite Heq.
        destruct (scanPorts_has_match tgt (c_Ports c) found p Hp Hname) as [Hr Hn].
        split; [done|]. exists c. split; [by left|done].
      * apply Hlift, Hmatch. by exists cnt, p.
Qed.

Lemma scanContainers_result_is_a_match_witness :
  (scanContainers "http" (d_Containers twoHttp) zeroContainerPort = zeroContainerPort \/
   (cp_Name (scanContainers "http" (d_Containers twoHttp) zeroContainerPort) = "http" /\
    exists cnt, cnt ∈ d_Containers twoHttp /\
                scanContainers "http" (d_Containers twoHttp) zeroContainerPort
                  ∈ c_Ports cnt)) /\
  ((exists cnt p, cnt ∈ d_Containers twoHttp /\ p ∈ c_Ports cnt /\
                  cp_Name p = "http") ->
   cp_Name (scanContainers "http" (d_Containers twoHttp) zeroContainerPort) = "http" /\
   exists cnt, cnt ∈ d_Containers twoHttp /\
               scanContainers "http" (d_Containers twoHttp) zeroContainerPort
                 ∈ c_Ports cnt).
Proof.
  exact (scanContainers_result_is_a_match "http" (d_Containers twoHttp)
           zeroContainerPort).
Defined.

(** Which match it is: the first port named like the target, in port
    order, of the last container, in container order, that has one. *)
Theorem scanContainers_first_port_of_last_matching_container
    (tgt : string) (earlier later : list Container) (cnt : Container)
    (before after : list ContainerPort) (p found : ContainerPort)
    (Hports : c_Ports cnt = (before ++ p :: after)%list)
    (Hbefore : Forall (fun q => cp_Name q <> tgt) before)
    (Hname : cp_Name p = tgt)
    (Hlater : Forall (fun c => Forall (fun q => cp_Name q <> tgt) (c_Ports c))
                     later) :
  scanContainers tgt (earlier ++ cnt :: later) found = p.
Proof.
  unfold scanContainers. rewrite fold_left_app. cbn [fold_left].
  fold (scanContainers tgt earlier found).
  fold (scanContainers tgt later
          (scanPorts tgt (c_Ports cnt) (scanContainers tgt earlier found))).
  rewrite scanContainers_no_match by done.
  rewrite Hports. by apply scanPorts_first.
Qed.

Lemma scanContainers_first_port_of_last_matching_container_witness :
  scanContainers "http"
    ([mkContainer "app" [mkContainerPort "http" 8080]] ++
     mkContainer "sidecar"
       [mkContainerPort "admin" 9000; mkContainerPort "http" 9090;
        mkContainerPort "http" 9091] ::
     [mkContainer "logger" [mkContainerPort "syslog" 514]])
    zeroContainerPort = mkContainerPort "http" 9090.
Proof.
  apply (scanContainers_first_port_of_last_matching_container "http"
           [mkContainer "app" [mkContainerPort "http" 8080]]
           [mkContainer "logger" [mkContainerPort "syslog" 514]]
           (mkContainer "sidecar"
              [mkContainerPort "admin" 9000; mkContainerPort "http" 9090;
               mkContainerPort "http" 9091])
           [mkContainerPort "admin" 9000] [mkContainerPort "http" 9091]).
  - reflexivity.
  - repeat constructor; discriminate.
  - reflexivity.
  - repeat constructor; discriminate.
Defined.

(** ** Further properties of the validation step *)

(** There is no bound on the wait for the forwarder: when the forwarder of
    a candidate never becomes ready, the step blocks at that pod, after the
    pods before it were probed and stopped; the forwarder was started, no
    probe is sent, nothing is stopped and nothing after it is tried. *)
Theorem validateContainerPort_blocks_on_unready_forwarder
    (env : Env) (self : Ops Kubetrbl) (m : Machine Kubetrbl) (c : Config)
    (probed : list (Pod * Z)) (pod : Pod) (rest : list Pod)
    (Hconfig : config (user m) = Some c)
    (Hclient : RESTClientFor env (withDefaults c) = None)
    (Hprobed : Forall (fun pc => Tunnel env (namespace (user m)) (pod_Name pc.1)
                                   (portMappingOf (user m)) = Ready (inr pc.2))
                      probed)
    (Hlist : podList (user m) = (probed.*1 ++ pod :: rest)%list)
    (Hstuck : Tunnel env (namespace (user m)) (pod_Name pod)
                (portMappingOf (user m)) = NeverReady) :
  validateContainerPort env self m =
    Blocked
      (mkMachine (FSM_State m) (stdout m ++ reports probed ++ [checking pod])
         (log_tunnels
            (lifecycles (portMappingOf (user m)) probed.*1 ++
             [Started (pod_Name pod) (portMappingOf (user m))])
            (set_config (Some (withDefaults c)) (user m)))).
Proof.
  unfold validateContainerPort. run.
  rewrite Hconfig. run. rewrite Hclient. run. rewrite Hlist.
  rewrite probePods_statuses by exact Hprobed.
  cbn [probePods]. run.
  change (namespace (log_tunnels ?es ?k)) with (namespace k).
  cbn [namespace containerPort log_tunnels set_config].
  fold (portMappingOf (user m)). rewrite Hstuck. run.
  unfold log_tunnels, log_tunnel, set_config. cbn.
  rewrite <- !app_assoc. reflexivity.
Qed.

Lemma validateContainerPort_blocks_on_unready_forwarder_witness :
  validateContainerPort
      (cluster oneHttp (FromString "http") [web1; web2; db1] stuck)
      (ops (NewKubetrbl (cluster oneHttp (FromString "http") [web1; web2; db1] stuck)) 1)
      beforeValidate =
    Blocked
      (mkMachine "validateContainerPort" [checking web1]
         (log_tunnels [Started "web-1" "8080:8080"]
            (set_config (Some (mkConfig (Some ("", "v1")) "/api" true))
                        (user beforeValidate)))).
Proof.
  apply (validateContainerPort_blocks_on_unready_forwarder
           (cluster oneHttp (FromString "http") [web1; web2; db1] stuck)
           (ops (NewKubetrbl (cluster oneHttp (FromString "http") [web1; web2; db1] stuck)) 1)
           beforeValidate (mkConfig None "" false) [] web1 [web2]).
  - reflexivity.
  - reflexivity.
  - constructor.
  - reflexivity.
  - reflexivity.
Defined.

(** When the forwarder of a candidate cannot be built, the step returns
    that error: the pod is announced but no forwarder is started for it, and
    the pods after it are not tried. *)
Theorem validateContainerPort_unbuilt_forwarder_is_returned
    (env : Env) (self : Ops Kubetrbl) (m : Machine Kubetrbl) (c : Config)
    (probed : list (Pod * Z)) (pod : Pod) (rest : list Pod) (e : error)
    (Hconfig : config (user m) = Some c)
    (Hclient : RESTClientFor env (withDefaults c) = None)
    (Hprobed : Forall (fun pc => Tunnel env (namespace (user m)) (pod_Name pc.1)
                                   (portMappingOf (user m)) = Ready (inr pc.2))
                      probed)
    (Hlist : podList (user m) = (probed.*1 ++ pod :: rest)%list)
    (Hnew : Tunnel env (namespace (user m)) (pod_Name pod)
              (portMappingOf (user m)) = NewFails e) :
  validateContainerPort env self m =
    Done (Some e)
      (mkMachine (FSM_State m) (stdout m ++ reports probed ++ [checking pod])
         (log_tunnels (lifecycles (portMappingOf (user m)) probed.*1)
            (set_config (Some (withDefaults c)) (user m)))).
Proof.
  unfold validateContainerPort. run.
  rewrite Hconfig. run. rewrite Hclient. run. rewrite Hlist.
  rewrite probePods_statuses by exact Hprobed.
  cbn [probePods]. run.
  cbn [namespace containerPort log_tunnels set_config].
  fold (portMappingOf (user m)). rewrite Hnew. run.
  rewrite <- !app_assoc. reflexivity.
Qed.

Lemma validateContainerPort_unbuilt_forwarder_is_returned_witness :
  validateContainerPort
      (cluster oneHttp (FromString "http") [web1; web2; db1] unbuilt)
      (ops (NewKubetrbl (cluster oneHttp (FromString "http") [web1; web2; db1] unbuilt)) 1)
      beforeValidate =
    Done (Some "bad port")
      (mkMachine "validateContainerPort" [checking web1]
         (log_tunnels []
            (set_config (Some (mkConfig (Some ("", "v1")) "/api" true))
                        (user beforeValidate)))).
Proof.
  apply (validateContainerPort_unbuilt_forwarder_is_returned
           (cluster oneHttp (FromString "http") [web1; web2; db1] unbuilt)
           (ops (NewKubetrbl (cluster oneHttp (FromString "http") [web1; web2; db1] unbuilt)) 1)
           beforeValidate (mkConfig None "" false) [] web1 [web2] "bad port").
  - reflexivity.
  - reflexivity.
  - constructor.
  - reflexivity.
  - reflexivity.
Defined.

(** ** Properties of the cluster context *)

Lemma fold_left_snoc_all {A} (l acc : list A) :
  fold_left (fun acc x => (acc ++ [x])%list) l acc = (acc ++ l)%list.
Proof.
  revert acc. induction l as [|x l IH]; intros acc; cbn.
  - by rewrite app_nil_r.
  - rewrite IH. by rewrite <- app_assoc.
Qed.

Lemma fold_left_snoc_filter {A B} (P : A -> Prop) `{!forall x, Decision (P x)}
    (g : A -> B) (l : list A) (acc : list B) :
  fold_left (fun r x => if decide (P x) then (r ++ [g x])%list else r) l acc =
    (acc ++ (g <$> filter P l))%list.
Proof.
  revert acc. induction l as [|x l IH]; intros acc; cbn [fold_left].
  - by rewrite filter_nil, app_nil_r.
  - rewrite IH, filter_cons. destruct (decide (P x)); [|done].
    cbn. by rewrite <- app_assoc.
Qed.

Lemma fold_left_snoc_notReady (name : string) (conds : list PodCondition)
    (acc : list string) :
  fold_left (fun r c => if notReady c then (r ++ [name])%list else r) conds acc =
    (acc ++ ((fun _ => name) <$> filter (fun c => notReady c = true) conds))%list.
Proof.
  revert acc. induction conds as [|c conds IH]; intros acc; cbn [fold_left].
  - by rewrite filter_nil, app_nil_r.
  - rewrite IH, filter_cons. destruct (notReady c) eqn:Hc.
    + rewrite decide_True by done. cbn. by rewrite <- app_assoc.
    + rewrite decide_False by done. done.
Qed.

Lemma notReady_loops (l : list Pod) (acc : list string) :
  fold_left
    (fun result pod =>
       fold_left
         (fun result c =>
            if notReady c then (result ++ [pod_Name pod])%list else result)
         (pod_Conditions pod) result) l acc =
    (acc ++ flat_map
              (fun pod => (fun _ => pod_Name pod) <$>
                 filter (fun c => notReady c = true) (pod_Conditions pod)) l)%list.
Proof.
  revert acc. induction l as [|p l IH]; intros acc; cbn [fold_left flat_map].
  - by rewrite app_nil_r.
  - rewrite fold_left_snoc_notReady, IH. by rewrite <- app_assoc.
Qed.

(** After a successful [InitClient] the context is connected and holds a
    complete configuration: a group version, a non-empty API path and a
    serializer, so that completing it again changes nothing; namespace and
    snapshot are as before. *)
Theorem InitClient_success_completes_config
    (env : Env) (k k' : K8sContext)
    (Hok : InitClient env k = (None, k')) :
  kc_k8sClient k' = true /\
  kc_namespace k' = kc_namespace k /\
  kc_pods k' = kc_pods k /\
  exists c,
    kc_config k' = Some c /\ is_Some (GroupVersion c) /\ APIPath c <> "" /\
    NegotiatedSerializer c = true /\ withDefaults c = c.
Proof.
  unfold InitClient in Hok.
  destruct (BuildConfigFromFlags env (kubeConfigPath k)) as [e|c]; [done|].
  destruct (NewForConfig env (withDefaults c)) as [e|]; [done|].
  injection Hok as <-. cbn. repeat split.
  exists (withDefaults c). split; [done|].
  unfold withDefaults. cbn. repeat split.
  - by destruct (GroupVersion c).
  - by destruct (decide (APIPath c = "")).
  - f_equal.
    + by destruct (GroupVersion c).
    + destruct (decide (APIPath c = "")) as [He|Hne]; [done|].
      by rewrite decide_False.
Qed.

Lemma InitClient_success_completes_config_witness :
  kc_k8sClient (mkK8sContext "/cfg" true "" (Some (mkConfig (Some ("", "v1")) "/api" true)) []) = true /\
  kc_namespace (mkK8sContext "/cfg" true "" (Some (mkConfig (Some ("", "v1")) "/api" true)) []) =
    kc_namespace (NewK8sContext "/cfg") /\
  kc_pods (mkK8sContext "/cfg" true "" (Some (mkConfig (Some ("", "v1")) "/api" true)) []) =
    kc_pods (NewK8sContext "/cfg") /\
  exists c,
    kc_config (mkK8sContext "/cfg" true "" (Some (mkConfig (Some ("", "v1")) "/api" true)) []) =
      Some c /\ is_Some (GroupVersion c) /\ APIPath c <> "" /\
    NegotiatedSerializer c = true /\ withDefaults c = c.
Proof.
  apply (InitClient_success_completes_config
           (cluster oneHttp (FromString "http") [web1] (status 200))
           (NewK8sContext "/cfg")).
  reflexivity.
Defined.

(** [GetPods] on a connected context stores the pods the cluster lists, in
    the same order, and [GetPendingPods] on the result names exactly the
    pending ones among them, in that order and without an error. *)
Theorem GetPods_then_GetPendingPods
    (env : Env) (k : K8sContext) (items : list Pod)
    (Hclient : kc_k8sClient k = true)
    (Hlist : ListPods env (kc_namespace k) = inr items) :
  exists k',
    GetPods env k = Some ((items, None), k') /\
    kc_pods k' = items /\
    kc_namespace k' = kc_namespace k /\
    GetPendingPods k' =
      (pod_Name <$> filter (fun p => pod_Phase p = "Pending") items, None).
Proof.
  unfold GetPods. rewrite Hclient, Hlist. rewrite fold_left_snoc_all. cbn [app].
  eexists. split; [reflexivity|]. cbn. repeat split.
  unfold GetPendingPods. cbn. by rewrite fold_left_snoc_filter.
Qed.

Lemma GetPods_then_GetPendingPods_witness :
  exists k',
    GetPods (cluster oneHttp (FromString "http") [web1; job1; db1] (status 200))
            (mkK8sContext "/cfg" true "prod" None []) =
      Some (([web1; job1; db1], None), k') /\
    kc_pods k' = [web1; job1; db1] /\
    kc_namespace k' = "prod" /\
    GetPendingPods k' =
      (pod_Name <$> filter (fun p => pod_Phase p = "Pending") [web1; job1; db1],
       None).
Proof.
  apply (GetPods_then_GetPendingPods
           (cluster oneHttp (FromString "http") [web1; job1; db1] (status 200))
           (mkK8sContext "/cfg" true "prod" None []) [web1; job1; db1]).
  - reflexivity.
  - reflexivity.
Defined.

(** Every pending pod is also listed as not running, in the same relative
    order: the names [GetPendingPods] returns are a sublist of those
    [GetNonrunningPods] returns. *)
Theorem GetPendingPods_sublist_of_GetNonrunningPods (k : K8sContext) :
  (GetPendingPods k).1 `sublist_of` (GetNonrunningPods k).1.
Proof.
  unfold GetPendingPods, GetNonrunningPods. cbn [fst].
  rewrite (fold_left_snoc_filter (fun p => pod_Phase p = "Pending") pod_Name).
  rewrite (fold_left_snoc_filter (fun p => pod_Phase p <> "Running") pod_Name).
  cbn [app]. apply fmap_sublist.
  induction (kc_pods k) as [|p l IH]; [done|].
  rewrite !filter_cons.
  destruct (decide (pod_Phase p = "Pending")) as [Hp|Hp].
  - rewrite decide_True by (rewrite Hp; discriminate). by constructor.
  - destruct (decide (pod_Phase p <> "Running")); [by constructor|done].
Qed.

(** The two variants of the checks agree on when to go on and on the first
    pod they name: the lists of the context are empty exactly when the
    searches of the first variant find nothing, and the head of each list is
    the pod the search finds. *)
Theorem context_lists_agree_with_searches (k : K8sContext) :
  head (GetPendingPods k).1 =
    pod_Name <$> List.find (fun pod => bool_decide (pod_Phase pod = "Pending"))
                           (kc_pods k) /\
  head (GetNonrunningPods k).1 =
    pod_Name <$> List.find (fun pod => bool_decide (pod_Phase pod <> "Running"))
                           (kc_pods k) /\
  head (GetNotReadyPods k).1 =
    pod_Name <$> List.find (fun pod => existsb notReady (pod_Conditions pod))
                           (kc_pods k).
Proof.
  unfold GetPendingPods, GetNonrunningPods, GetNotReadyPods. cbn [fst].
  rewrite (fold_left_snoc_filter (fun p => pod_Phase p = "Pending") pod_Name).
  rewrite (fold_left_snoc_filter (fun p => pod_Phase p <> "Running") pod_Name).
  cbn [app]. repeat split.
  - induction (kc_pods k) as [|p l IH]; [done|].
    rewrite filter_cons. cbn [List.find].
    destruct (decide (pod_Phase p = "Pending")).
    + by rewrite bool_decide_eq_true_2.
    + by rewrite bool_decide_eq_false_2.
  - induction (kc_pods k) as [|p l IH]; [done|].
    rewrite filter_cons. cbn [List.find].
    destruct (decide (pod_Phase p <> "Running")).
    + by rewrite bool_decide_eq_true_2.
    + by rewrite bool_decide_eq_false_2.
  - rewrite notReady_loops. cbn [app].
    induction (kc_pods k) as [|p l IH]; [done|].
    cbn [flat_map List.find].
    destruct (existsb notReady (pod_Conditions p)) eqn:Hex.
    + apply existsb_exists in Hex as (c & Hin & Hc).
      apply list_elem_of_In in Hin.
      assert (c ∈ filter (fun c => notReady c = true) (pod_Conditions p)) as Hf
        by by apply list_elem_of_filter.
      destruct (filter (fun c => notReady c = true) (pod_Conditions p));
        [by apply elem_of_nil in Hf|done].
    + assert (filter (fun c => notReady c = true) (pod_Conditions p) = []) as ->.
      { destruct (filter (fun c => notReady c = true) (pod_Conditions p))
          as [|c l'] eqn:Hf; [done|].
        assert (c ∈ filter (fun c => notReady c = true) (pod_Conditions p)) as Hc
          by (rewrite Hf; by left).
        apply list_elem_of_filter in Hc as [Hc Hin].
        apply list_elem_of_In in Hin.
        assert (existsb notReady (pod_Conditions p) = true) as Htrue
          by (apply existsb_exists; by exists c).
        congruence. }
      exact IH.
Qed.

(** [GetNotReadyPods] names a pod once for each of its Ready conditions
    with a status other than True, so a pod can be listed more than once. *)
Theorem GetNotReadyPods_names_once_per_condition (k : K8sContext) :
  GetNotReadyPods k =
    (flat_map
       (fun pod => (fun _ => pod_Name pod) <$>
                     filter (fun c => notReady c = true) (pod_Conditions pod))
       (kc_pods k),
     None).
Proof.
  unfold GetNotReadyPods. by rewrite notReady_loops.
Qed.

(** ** The library functions on sample texts *)

(** [TrimSpace] removes the white space of Unicode at both ends: here a
    space, a tab, U+2009 in front and U+00A0, a carriage return, a line feed
    and U+3000 behind; U+200B is no white space and stays. *)
Example TrimSpace_unicode_white_space :
  TrimSpace (bytes [32; 9; 226; 128; 137; 50; 194; 160; 13; 10; 227; 128; 128])
    = "2" /\
  Atoi (TrimSpace (bytes [50; 194; 160])) = inr 2%Z /\
  TrimSpace (bytes [226; 128; 139; 50; 32]) = bytes [226; 128; 139; 50].
Proof. repeat split; vm_compute; reflexivity. Qed.

(** [Quote] escapes the quote, the backslash, the tab, U+007F, a byte that
    is no UTF-8 and U+00A0, and leaves the letters, among them U+00E9, as
    they are. *)
Example Quote_escapes :
  Quote latin1 (bytes [97; 34; 92; 9; 127; 255; 195; 169; 194; 160]) =
    dquote +:+ "a" +:+ backslash +:+ dquote +:+ backslash +:+ backslash +:+
    "\t\x7f\xff" +:+ bytes [195; 169] +:+ "\u00a0" +:+ dquote /\
  Quote (mkQuoteRules (fun _ => false) false) (bytes [127]) =
    dquote +:+ "\u007f" +:+ dquote.
Proof. split; vm_compute; reflexivity. Qed.

(** [Atoi] reports the range error of a text whose digits leave 64 bits
    before it meets a byte that is no digit, the syntax error otherwise, and
    takes the whole range of a 64-bit [int]. *)
Example Atoi_errors :
  Atoi "18446744073709551616x" =
    inl (mkNumError "18446744073709551616x" ErrRange) /\
  Atoi "1844674407370955161x" =
    inl (mkNumError "1844674407370955161x" ErrSyntax) /\
  Atoi "9223372036854775808" =
    inl (mkNumError "9223372036854775808" ErrRange) /\
  Atoi "-9223372036854775808" = inr (-9223372036854775808)%Z /\
  Atoi "+7" = inr 7%Z /\
  Atoi "-" = inl (mkNumError "-" ErrSyntax) /\
  Atoi "" = inl (mkNumError "" ErrSyntax).
Proof. repeat split; vm_compute; reflexivity. Qed.

(** ** Reading back a listed index *)

Lemma digitVal_pretty_N_char (y : N) :
  (y < 10)%N -> digitVal (pretty_N_char y) = Some (Z.of_N y).
Proof.
  intros Hy.
  assert (y = 0 \/ y = 1 \/ y = 2 \/ y = 3 \/ y = 4 \/ y = 5 \/ y = 6 \/
          y = 7 \/ y = 8 \/ y = 9)%N as Hcases by lia.
  repeat destruct Hcases as [->|Hcases]; try reflexivity.
  subst. reflexivity.
Qed.

Lemma parseUint_pretty_N_go (x : N) :
  exists k : nat, forall s acc,
    (0 <= acc)%Z ->
    (acc * 10 ^ Z.of_nat k + Z.of_N x <= maxUint64)%Z ->
    parseUint (pretty_N_go x s) acc =
      parseUint s (acc * 10 ^ Z.of_nat k + Z.of_N x)%Z.
Proof.
  induction (N.lt_wf_0 x) as [x _ IH].
  destruct (decide (x = 0)%N) as [->|Hx].
  - exists 0%nat. intros s acc _ _. rewrite pretty_N_go_0. f_equal. lia.
  - destruct (IH (x `div` 10)%N) as [k Hk]; [apply N.div_lt; lia|].
    exists (S k). intros s acc Hacc Hmax.
    rewrite Nat2Z.inj_succ, Z.pow_succ_r in * by lia.
    pose proof (Z.div_mod (Z.of_N x) 10 ltac:(lia)) as Hdm.
    pose proof (Z.mod_pos_bound (Z.of_N x) 10 ltac:(lia)) as Hmod.
    assert (0 <= 10 ^ Z.of_nat k)%Z as Hpow by (apply Z.pow_nonneg; lia).
    assert (0 <= acc * 10 ^ Z.of_nat k)%Z as Hprod
      by (apply Z.mul_nonneg_nonneg; lia).
    assert (0 <= Z.of_N x `div` 10)%Z as Hdiv by (apply Z.div_pos; lia).
    replace (acc * (10 * 10 ^ Z.of_nat k))%Z
      with (10 * (acc * 10 ^ Z.of_nat k))%Z in * by ring.
    unfold maxUint64 in Hmax.
    rewrite pretty_N_go_step by lia.
    rewrite Hk by (rewrite ?N2Z.inj_div; unfold maxUint64; lia).
    cbn [parseUint].
    rewrite digitVal_pretty_N_char by (apply N.mod_lt; lia).
    rewrite N2Z.inj_mod, N2Z.inj_div.
    generalize dependent (acc * 10 ^ Z.of_nat k)%Z. intros P HP Hmax.
    rewrite bool_decide_eq_false_2
      by (change (maxUint64 `div` 10 + 1)%Z with 1844674407370955162%Z; lia).
    rewrite bool_decide_eq_false_2 by (unfold maxUint64; lia).
    f_equal. lia.
Qed.

Lemma pretty_N_go_head (x : N) (s : string) :
  (0 < x)%N ->
  exists y rest, (y < 10)%N /\ pretty_N_go x s = String (pretty_N_char y) rest.
Proof.
  revert s. induction (N.lt_wf_0 x) as [x _ IH]; intros s Hx.
  rewrite pretty_N_go_step by done.
  destruct (decide (x `div` 10 = 0)%N) as [Hz|Hnz].
  - rewrite Hz, pretty_N_go_0. exists (x `mod` 10)%N, s.
    split; [apply N.mod_lt; lia|done].
  - apply IH; [apply N.div_lt; lia|by apply N.neq_0_lt_0].
Qed.

Lemma Atoi_unsigned (y : N) (rest : string) :
  (y < 10)%N ->
  Atoi (String (pretty_N_char y) rest) =
    match parseUint (String (pretty_N_char y) rest) 0 with
    | Syntax => inl (mkNumError (String (pretty_N_char y) rest) ErrSyntax)
    | Range => inl (mkNumError (String (pretty_N_char y) rest) ErrRange)
    | Value n =>
        if bool_decide (- 2 ^ 63 <= n < 2 ^ 63)%Z then inr n
        else inl (mkNumError (String (pretty_N_char y) rest) ErrRange)
    end.
Proof.
  intros Hy.
  assert (y = 0 \/ y = 1 \/ y = 2 \/ y = 3 \/ y = 4 \/ y = 5 \/ y = 6 \/
          y = 7 \/ y = 8 \/ y = 9)%N as Hcases by lia.
  repeat destruct Hcases as [->|Hcases]; try reflexivity.
  subst. reflexivity.
Qed.

Lemma Atoi_negative (c : ascii) (rest : string) :
  Atoi (String "-" (String c rest)) =
    match parseUint (String c rest) 0 with
    | Syntax => inl (mkNumError (String "-" (String c rest)) ErrSyntax)
    | Range => inl (mkNumError (String "-" (String c rest)) ErrRange)
    | Value n =>
        if bool_decide (- 2 ^ 63 <= - n < 2 ^ 63)%Z then inr (- n)%Z
        else inl (mkNumError (String "-" (String c rest)) ErrRange)
    end.
Proof. reflexivity. Qed.

Lemma Atoi_Itoa (z : Z) :
  (- 2 ^ 63 <= z < 2 ^ 63)%Z -> Atoi (Itoa z) = inr z.
Proof.
  intros Hz. destruct z as [|p|p].
  - reflexivity.
  - unfold Itoa, pretty, pretty_Z, pretty, pretty_positive, pretty, pretty_N.
    rewrite decide_False by done.
    destruct (pretty_N_go_head (N.pos p) "" ltac:(lia)) as (y & rest & Hy & Hhead).
    destruct (parseUint_pretty_N_go (N.pos p)) as [k Hk].
    rewrite Hhead, Atoi_unsigned by done. rewrite <- Hhead.
    rewrite Hk by (unfold maxUint64; lia). cbn [parseUint].
    replace (0 * 10 ^ Z.of_nat k + Z.of_N (N.pos p))%Z with (Z.pos p) by lia.
    by rewrite bool_decide_eq_true_2.
  - unfold Itoa, pretty, pretty_Z, pretty, pretty_positive, pretty, pretty_N.
    rewrite decide_False by done.
    destruct (pretty_N_go_head (N.pos p) "" ltac:(lia)) as (y & rest & Hy & Hhead).
    destruct (parseUint_pretty_N_go (N.pos p)) as [k Hk].
    rewrite Hhead.
    change ("-" +:+ String (pretty_N_char y) rest)
      with (String "-" (String (pretty_N_char y) rest)).
    rewrite Atoi_negative.
    rewrite <- Hhead. rewrite Hk by (unfold maxUint64; lia). cbn [parseUint].
    replace (0 * 10 ^ Z.of_nat k + Z.of_N (N.pos p))%Z with (Z.pos p) by lia.
    by rewrite bool_decide_eq_true_2.
Qed.

(** The index printed in front of a list entry reads back as itself: when
    the next line of input is that index, as [strconv.Itoa] printed it and
    with any white space around it, [readInt] returns the position and
    consumes the line. *)
Theorem readInt_reads_back_listed_index
    (m : Machine Kubetrbl) (i : nat) (line : string) (rest : list string)
    (Hinput : reader (user m) = line :: rest)
    (Htyped : TrimSpace line = Itoa (Z.of_nat i))
    (Hbound : (Z.of_nat i < 2 ^ 63)%Z) :
  readInt m =
    Done (inr (Z.of_nat i))
      (mkMachine (FSM_State m) (stdout m) (set_reader rest (user m))).
Proof.
  unfold readInt, readString. run. rewrite Hinput. run.
  rewrite Htyped, Atoi_Itoa by lia. reflexivity.
Qed.

Lemma readInt_reads_back_listed_index_witness :
  readInt (beforeNamespace [" 12 "; "x"]) =
    Done (inr 12%Z)
      (mkMachine "getKubeConfig" []
         (set_reader ["x"] (user (beforeNamespace [" 12 "; "x"])))).
Proof.
  apply (readInt_reads_back_listed_index (beforeNamespace [" 12 "; "x"]) 12
           " 12 " ["x"]).
  - reflexivity.
  - vm_compute; reflexivity.
  - vm_compute; reflexivity.
Defined.

(** ** The steps between connecting and selecting a service *)

(** A configuration that loads and yields a client connects the session:
    the path, the configuration and the client are stored, one line of input
    is consumed and the machine goes from getKubeConfig, through its
    [Update], on to getNamespace. *)
Theorem getKubeConfig_loadable_config_connects
    (env : Env) (fuel : nat) (m : Machine Kubetrbl) (line : string)
    (rest : list string) (c : Config)
    (Hinput : reader (user m) = line :: rest)
    (Hload : BuildConfigFromFlags env (TrimSpace line) = inr c)
    (Hnew : NewForConfig env c = None) :
  Change (NewKubetrbl env) (S (S (S fuel))) "getKubeConfig" m =
    Change (NewKubetrbl env) (S fuel) "getNamespace"
      (mkMachine "getKubeConfig"
         (stdout m ++
          [Line "We need to start by connecting to a Kubernetes cluster.";
           Line "Enter the location of your KUBECONFIG file: "])
         (set_k8sClient true
            (set_config (Some c)
               (set_cfg (TrimSpace line) (set_reader rest (user m)))))).
Proof.
  rewrite (NewKubetrbl_enters env _ "getKubeConfig" (getKubeConfig)
             (Some (createK8sClient env)) m) by done.
  unfold invoke, getKubeConfig, readString, entering. run.
  rewrite Hinput. run.
  change (update (ops (NewKubetrbl env) (S (S fuel))))
    with (Update_body (NewKubetrbl env) (ops (NewKubetrbl env) (S fuel))).
  unfold Update_body.
  rewrite NewKubetrbl_active_Update by reflexivity.
  unfold invoke, createK8sClient. run. cbn [cfg set_cfg]. rewrite Hload. run.
  rewrite Hnew. run.
  rewrite <- !app_assoc. cbn [app].
  through.
Qed.

Lemma getKubeConfig_loadable_config_connects_witness :
  Change (NewKubetrbl (cluster oneHttp (FromString "http") [web1] (status 200)))
         3 "getKubeConfig" (fresh ["/cfg"; "x"]) =
    Change (NewKubetrbl (cluster oneHttp (FromString "http") [web1] (status 200)))
           1 "getNamespace"
      (mkMachine "getKubeConfig"
         [Line "We need to start by connecting to a Kubernetes cluster.";
          Line "Enter the location of your KUBECONFIG file: "]
         (set_k8sClient true
            (set_config (Some (mkConfig None "" false))
               (set_cfg "/cfg" (set_reader ["x"] (newK ["/cfg"; "x"])))))).
Proof.
  apply (getKubeConfig_loadable_config_connects
           (cluster oneHttp (FromString "http") [web1] (status 200)) 0
           (fresh ["/cfg"; "x"]) "/cfg" ["x"] (mkConfig None "" false)).
  - reflexivity.
  - reflexivity.
  - reflexivity.
Defined.

(** [countPods] takes the snapshot of the selected namespace: the pods
    listed become the session's snapshot, their number is printed, and the
    machine goes on to checkPendingPods. *)
Theorem countPods_stores_snapshot
    (env : Env) (fuel : nat) (m : Machine Kubetrbl) (items : list Pod)
    (Hclient : k8sClient (user m) = true)
    (Hlist : ListPods env (namespace (user m)) = inr items) :
  Change (NewKubetrbl env) (S (S fuel)) "countPods" m =
    Change (NewKubetrbl env) (S fuel) "checkPendingPods"
      (mkMachine "countPods"
         (stdout m ++
          [Line ("There are " +:+ Itoa (Z.of_nat (length items)) +:+
                 " pods in the cluster+namespace.")])
         (set_pods (Some items) (user m))).
Proof.
  rewrite (NewKubetrbl_enters env _ "countPods" (countPods env) None m) by done.
  unfold invoke, countPods, entering. run.
  rewrite Hclient, Hlist. run.
  through.
Qed.

Lemma countPods_stores_snapshot_witness :
  Change (NewKubetrbl (cluster oneHttp (FromString "http") [web1; db1] (status 200)))
         2 "countPods" (beforePort [] []) =
    Change (NewKubetrbl (cluster oneHttp (FromString "http") [web1; db1] (status 200)))
           1 "checkPendingPods"
      (mkMachine "countPods" [Line "There are 2 pods in the cluster+namespace."]
         (set_pods (Some [web1; db1]) (user (beforePort [] [])))).
Proof.
  apply (countPods_stores_snapshot
           (cluster oneHttp (FromString "http") [web1; db1] (status 200)) 0
           (beforePort [] []) [web1; db1]).
  - reflexivity.
  - reflexivity.
Defined.

(** A valid answer selects the service at that position of the list as
    displayed and goes on to getServicePort. *)
Theorem getServiceName_valid_index_selects
    (env : Env) (fuel : nat) (m : Machine Kubetrbl) (svcs : list Service)
    (line : string) (rest : list string) (answer : Z) (s : Service)
    (Hclient : k8sClient (user m) = true)
    (Hlist : ListServices env (namespace (user m)) = inr svcs)
    (Hinput : reader (user m) = line :: rest)
    (Hparsed : Atoi (TrimSpace line) = inr answer)
    (Hpos : (0 <= answer)%Z)
    (Hat : svcs !! Z.to_nat answer = Some s) :
  Change (NewKubetrbl env) (S (S fuel)) "getServiceName" m =
    Change (NewKubetrbl env) (S fuel) "getServicePort"
      (mkMachine "getServiceName"
         (stdout m ++ Line "Available services: " ::
            listing 0 (svc_Name <$> svcs) ++ [Text "Which service? "])%list
         (set_svc s (set_reader rest (user m)))).
Proof.
  rewrite (NewKubetrbl_enters env _ "getServiceName" (getServiceName env) None m)
    by done.
  unfold invoke, getServiceName, entering. run.
  rewrite Hclient, Hlist. run.
  rewrite printIndexed_run. unfold readInt, readString. run.
  rewrite Hinput. run. rewrite Hparsed. run.
  unfold index. rewrite decide_False by lia. rewrite Hat. run.
  rewrite <- !app_assoc. cbn [app].
  through.
Qed.

Lemma getServiceName_valid_index_selects_witness :
  Change (NewKubetrbl (cluster oneHttp (FromString "http") [web1] (status 200)))
         2 "getServiceName" (beforePort [] ["0"]) =
    Change (NewKubetrbl (cluster oneHttp (FromString "http") [web1] (status 200)))
           1 "getServicePort"
      (mkMachine "getServiceName"
         [Line "Available services: "; Line "0) web"; Text "Which service? "]
         (set_svc (mkService "web" {[ nameLabel := "web" ]}
                     [mkServicePort "http" (FromString "http")])
                  (set_reader [] (user (beforePort [] ["0"]))))).
Proof.
  apply (getServiceName_valid_index_selects
           (cluster oneHttp (FromString "http") [web1] (status 200)) 0
           (beforePort [] ["0"])
           [mkService "web" {[ nameLabel := "web" ]}
              [mkServicePort "http" (FromString "http")]]
           "0" [] 0).
  - reflexivity.
  - reflexivity.
  - reflexivity.
  - vm_compute; reflexivity.
  - lia.
  - reflexivity.
Defined.

(** ** The run stays within the registered states *)

Section Sound.

Context {A B : Type}.

Lemma ok_bind (c : M Kubetrbl A) (k : A -> M Kubetrbl B) :
  ok c -> (forall a, ok (k a)) -> ok (bind c k).
Proof.
  intros Hc Hk m Hm. unfold bind. specialize (Hc m Hm).
  destruct (c m) as [a m'| | |]; try exact Hc. by apply Hk.
Qed.

Lemma ok_ret (a : A) : ok (ret (D := Kubetrbl) a).
Proof. intros m Hm. exact Hm. Qed.

Lemma ok_panic (msg : string) : msg <> "Error!" -> ok (panic (A := A) msg).
Proof. intros Hmsg m _. exact Hmsg. Qed.

Lemma ok_block : ok (block (D := Kubetrbl) (A := A)).
Proof. intros m _. exact I. Qed.

End Sound.

Lemma ok_emit o : ok (emit (D := Kubetrbl) o).
Proof. intros m Hm. exact Hm. Qed.

Lemma ok_getUser : ok (getUser (D := Kubetrbl)).
Proof. intros m Hm. exact Hm. Qed.

Lemma ok_get : ok (get (D := Kubetrbl)).
Proof. intros m Hm. exact Hm. Qed.

Lemma ok_setUser k : ok (setUser k).
Proof. intros m Hm. exact Hm. Qed.

Lemma ok_modify g : ok (modify g).
Proof. intros m Hm. exact Hm. Qed.

Lemma ok_change self name :
  soundOps self -> name ∈ stateNames -> ok (change self name).
Proof. intros [Hc _] Hname m _. by apply Hc. Qed.

Lemma ok_update self : soundOps self -> ok (update self).
Proof. intros [_ Hu] m Hm. by apply Hu. Qed.

Lemma ok_printIndexed i names : ok (printIndexed i names).
Proof. intros m Hm. rewrite printIndexed_run. exact Hm. Qed.

Create HintDb okdb discriminated.

#[global] Hint Unfold mbind mret M_bind M_ret Println Printf readString readInt
  welcome finish getKubeConfig createK8sClient getNamespace countPods
  checkPendingPods checkRunningPods checkReadyPods getServiceName
  getServicePort getControllerWorkload getContainerPort getControllerPods
  validateContainerPort reenter : okdb.

Ltac ok_step :=
  first
    [ apply ok_ret | apply ok_emit | apply ok_getUser | apply ok_get
    | apply ok_setUser | apply ok_modify | apply ok_block
    | apply ok_printIndexed
    | apply ok_update; assumption
    | apply ok_change; [assumption|compute_done]
    | apply ok_panic; discriminate
    | assumption
    | apply ok_bind; [|intros ?]
    | match goal with
      | |- ok (match ?x with _ => _ end) => destruct x
      end ].

Ltac ok_auto := autounfold with okdb; repeat ok_step.

Lemma ok_index {A} (l : list A) (i : Z) : ok (index l i).
Proof. unfold index. ok_auto. Qed.

Lemma ok_probePods env candidates : ok (probePods env candidates).
Proof.
  induction candidates as [|pod rest IH]; cbn [probePods]; ok_auto.
Qed.

Ltac ok_callback :=
  autounfold with okdb;
  repeat first [apply ok_index | apply ok_probePods | ok_step].

Lemma ok_reenter self e : soundOps self -> ok (reenter self e).
Proof.
  intros [Hc _] m Hm. unfold reenter. run. by apply Hc.
Qed.

Lemma ok_invoke env self (cb : Callback Kubetrbl) :
  soundOps self -> ok (cb self) -> ok (invoke (NewKubetrbl env) self cb).
Proof.
  intros Hself Hcb. unfold invoke. apply ok_bind; [done|].
  intros [e|]; [|apply ok_ret].
  rewrite NewKubetrbl_handler. by apply ok_reenter.
Qed.

Lemma ops_sound env fuel : soundOps (ops (NewKubetrbl env) fuel).
Proof.
  induction fuel as [|n IH]; [by split|].
  split.
  - intros name m Hname.
    change (change (ops (NewKubetrbl env) (S n)) name m)
      with (Change (NewKubetrbl env) (S n) name m).
    unfold stateNames in Hname.
    repeat (apply elem_of_cons in Hname as [->|Hname]);
      [..|by apply elem_of_nil in Hname];
      (erewrite NewKubetrbl_enters by (reflexivity || discriminate));
      (apply ok_invoke; [exact IH| |cbn; compute_done]);
      ok_callback.
  - intros m Hm.
    change (update (ops (NewKubetrbl env) (S n)) m)
      with (Update_body (NewKubetrbl env) (ops (NewKubetrbl env) n) m).
    unfold Update_body.
    destruct (decide (FSM_State m = "getKubeConfig")) as [Heq|Hne].
    + rewrite NewKubetrbl_active_Update by done.
      apply ok_invoke; [exact IH| |exact Hm]. ok_callback.
    + unfold active. destruct (decide (FSM_State m = "")); [exact Hm|].
      rewrite NewKubetrbl_Update by done. exact Hm.
Qed.

(** Whatever the cluster answers and whatever is typed, a run of the
    program never meets the fatal panic of [Change] on a name without state:
    every transition the callbacks and the handler ask for goes to a
    registered state, and a run that returns ends in one of them. *)
Theorem Start_stays_within_registered_states
    (env : Env) (fuel : nat) (input : list string) :
  match Start env fuel (fresh input) with
  | Done _ m' => FSM_State m' ∈ stateNames
  | Panicked msg _ => msg <> "Error!"
  | Blocked _ => True
  | OutOfFuel => True
  end.
Proof.
  destruct (ops_sound env fuel) as [Hchange _].
  apply (Hchange "welcome" (fresh input)). compute_done.
Qed.
